(** * The GitHub client of kibana-bot ([src/lib/github_api.ts])

    A shallow embedding of the [GithubApi] class: the request dispatcher
    [req], the rate-limit monitor [checkForRateLimitInfo], the domain
    operations [compare] and [getCommitDate], and the paginated traversal
    [ittrAllOpenPrs], followed by the properties the specification states
    about them.

    Effects are explicit.  A computation is a function from a [World] to a
    completion (a returned value or a thrown one) and a new [World]; the world
    records, in order, the requests handed to axios, the entries written to
    the injected logger, the lines written to the console and the calls made
    to the throttled rate-limit logger, and it holds the state of that
    throttled function. *)

From Stdlib Require Import ZArith Ascii.
From stdpp Require Import base option list strings pretty gmap.

Local Open Scope Z_scope.
#[local] Set Warnings "-register-all".

(* ===================================================================== *)
(** ** What the JavaScript runtime and the npm packages provide *)
(* ===================================================================== *)

(** The built-ins and third-party functions the client calls.  They are not
    code of this repository, so the client is verified for every
    implementation of them. *)
Class JsRuntime := {
  (** the values of the JavaScript type [number] that [Number.parseFloat]
      produces *)
  JsNumber : Type;
  (** [Number.parseFloat] *)
  parseFloat : string -> JsNumber;
  (** the conversion of a number inside a template literal *)
  numberToString : JsNumber -> string;
  (** [encodeURIComponent] *)
  encodeURIComponent : string -> string;
  (** the time value of [new Date(s)], in milliseconds since the epoch;
      [None] is the NaN of an invalid date *)
  dateParse : string -> option Z;
  (** the default export of the package parse-link-header: [None] is its
      [null] result, the map is the object keyed by link relation, each
      value carrying its [url] *)
  parseLinkHeader : string -> option (gmap string string);
  (** the package lodash.throttle: the state of a throttled function, with
      its timer, the arguments it holds back and the clock it reads *)
  Throttle : Type;
  (** [throttle(func, wait)], just created *)
  throttle_create : Z -> Throttle;
  (** a call of the throttled function: the state after the call, and
      whether the call runs [func] at once, on the arguments of the call
      (the leading edge) *)
  throttle_call : Throttle -> JsNumber * JsNumber -> Throttle * bool;
  (** the timer of the throttled function while the event loop is free:
      the state after, and the arguments it runs [func] on if it fires with
      arguments held back (the trailing edge) *)
  throttle_timer : Throttle -> Throttle * option (JsNumber * JsNumber);
  (** the first call of a throttled function runs [func] at once *)
  throttle_leading :
    forall (wait : Z) (args : JsNumber * JsNumber),
      snd (throttle_call (throttle_create wait) args) = true;
}.

(* ===================================================================== *)
(** ** Data *)
(* ===================================================================== *)

(** A JavaScript value of type [any]: query parameters, request bodies and
    the bodies of error responses. *)
Inductive JsVal : Type :=
  | JUndefined
  | JNull
  | JBool (b : bool)
  | JInt (z : Z)
  | JStr (s : string)
  | JArr (items : list JsVal)
  | JObj (fields : list (string * JsVal)).

(** A string is truthy unless it is empty. *)
Definition truthy_string (s : string) : bool :=
  match s with
  | EmptyString => false
  | String _ _ => true
  end.

(** [headers[name]] used as a condition: [undefined] when the key is absent,
    otherwise the truthiness of the string found. *)
Definition truthy_header (value : option string) : bool :=
  match value with
  | Some v => truthy_string v
  | None => false
  end.

(** [headers[name]] used as a string, after the test above has passed. *)
Definition header_value (value : option string) : string :=
  default EmptyString value.

(** The object handed to [this.ax(...)]. *)
Record AxiosRequestConfig := {
  cfg_method : string;
  cfg_url : string;
  cfg_params : option (list (string * JsVal));
  cfg_data : option (list (string * JsVal));
}.

(** [AxiosResponse<T>].  [resp_headers] is [None] when the property is
    undefined. *)
Record AxiosResponse (T : Type) := {
  resp_data : T;
  resp_status : Z;
  resp_statusText : string;
  resp_headers : option (gmap string string);
}.
Arguments resp_data {T} _.
Arguments resp_status {T} _.
Arguments resp_statusText {T} _.
Arguments resp_headers {T} _.

(** [resp.headers && resp.headers[name]] *)
Definition response_header {T} (resp : AxiosResponse T) (name : string)
    : option string :=
  match resp_headers resp with
  | Some headers => headers !! name
  | None => None
  end.

(** A thrown value.  [Falsy] stands for the falsy values ([undefined],
    [null], ...); an [ErrorObject] carries the properties the classifiers
    read: [request] is truthy exactly when present, [response] likewise. *)
Inductive JsError : Type :=
  | Falsy
  | ErrorObject (message : string) (request : bool)
                (response : option (AxiosResponse JsVal)).

(** [new Error(message)]. *)
Definition newError (message : string) : JsError :=
  ErrorObject message false None.

(** [error && error.request] *)
Definition isAxiosErrorReq (error : JsError) : bool :=
  match error with
  | Falsy => false
  | ErrorObject _ request _ => request
  end.

(** [error && error.request && error.response] *)
Definition isAxiosErrorResp (error : JsError) : bool :=
  match error with
  | Falsy => false
  | ErrorObject _ request response => request && bool_decide (is_Some response)
  end.

(** [error.response] and [error.message] *)
Definition error_response (error : JsError) : option (AxiosResponse JsVal) :=
  match error with
  | Falsy => None
  | ErrorObject _ _ response => response
  end.

Definition error_message (error : JsError) : string :=
  match error with
  | Falsy => EmptyString
  | ErrorObject message _ _ => message
  end.

(** The fields of [Commit] the client reads: the two dates, as the strings
    GitHub sends. *)
Record CommitPerson := { person_date : string }.
Record Commit := { commit_author : CommitPerson; commit_committer : CommitPerson }.

(** The body of the commit resource: [resp.data.commit]. *)
Record CommitResource := { res_commit : Commit }.

Record GithubApiCompareCommit := { cc_sha : string; cc_commit : Commit }.

(** The fields of [GithubApiCompare] the client reads. *)
Record GithubApiCompare := {
  ahead_by : Z;
  commits : list GithubApiCompareCommit;
}.

(** [PrTip] and [GithubApiPr] of [github_api_types/pr.ts], without the
    fields typed [unknown] and the nested user and repository records. *)
Record PrTip := { tip_label : string; tip_ref : string; tip_sha : string }.

Record GithubApiPr := {
  pr_number : Z;
  pr_title : string;
  pr_body : string;
  pr_created_at : string;
  pr_updated_at : string;
  pr_head : PrTip;
  pr_base : PrTip;
  pr_draft : bool;
  pr_merged : bool;
}.

Inductive COMMIT_STATUS_STATE := state_error | state_pending | state_success | state_failure.

Record CommitStatusOptions := {
  opt_state : COMMIT_STATUS_STATE;
  opt_context : string;
  opt_description : option string;
  opt_target_url : option string;
}.

Inductive LogLevel := Debug | Info | Error.

(** A JavaScript [Date]: its time value, [None] for an invalid date. *)
Record JsDate := { timeValue : option Z }.

(** [new Date(s)] *)
Definition newDate {rt : JsRuntime} (s : string) : JsDate :=
  {| timeValue := dateParse s |}.

(** [a > b] on two dates: the comparison of their time values, false as soon
    as one of them is NaN. *)
Definition date_gt (a b : JsDate) : bool :=
  match timeValue a, timeValue b with
  | Some x, Some y => x >? y
  | _, _ => false
  end.

(* ===================================================================== *)
(** ** Effects *)
(* ===================================================================== *)

Section Effects.
Context {rt : JsRuntime}.

(** The structured metadata handed to the logger. *)
Inductive LogVal : Type :=
  | LStr (s : string)
  | LInt (z : Z)
  | LNum (x : JsNumber)
  | LAny (v : JsVal)
  | LParams (o : option (list (string * JsVal)))
  | LHeaders (h : option (gmap string string))
  | LCompare (c : GithubApiCompare)
  | LObj (fields : list (string * LogVal)).

(** One call of [this.log.debug], [this.log.info] or [this.log.error]; a
    call without metadata has [log_meta = None]. *)
Record LogEntry := {
  log_level : LogLevel;
  log_message : string;
  log_meta : option (list (string * LogVal));
}.

Record World := {
  (** the configurations handed to [this.ax], oldest first *)
  requests : list AxiosRequestConfig;
  (** the calls of the injected logger, oldest first *)
  logs : list LogEntry;
  (** the argument lists of [console.log], oldest first *)
  console : list (list string);
  (** the argument pairs of [this.throttledLogRateLimitInfo], oldest first *)
  throttled : list (JsNumber * JsNumber);
  (** the state of [this.throttledLogRateLimitInfo] *)
  throttle : Throttle;
}.

(** How a call ends. *)
Inductive Completion (A : Type) : Type :=
  | Return (a : A)
  | Throw (e : JsError).

Definition M (A : Type) : Type := World -> Completion A * World.

Definition ret {A} (a : A) : M A := fun w => (Return A a, w).

Definition throw {A} (e : JsError) : M A := fun w => (Throw A e, w).

Definition bind {A B} (m : M A) (k : A -> M B) : M B :=
  fun w =>
    match m w with
    | (Return _ a, w') => k a w'
    | (Throw _ e, w') => (Throw B e, w')
    end.

(** [try { m } catch (error) { handler(error) }] *)
Definition try_catch {A} (m : M A) (handler : JsError -> M A) : M A :=
  fun w =>
    match m w with
    | (Return _ a, w') => (Return A a, w')
    | (Throw _ e, w') => handler e w'
    end.

Definition modify (f : World -> World) : M unit := fun w => (Return unit tt, f w).

(** [this.log.<level>(message, meta)] *)
Definition log (level : LogLevel) (message : string)
    (meta : option (list (string * LogVal))) : M unit :=
  modify (fun w =>
    {| requests := requests w;
       logs := logs w ++ [ {| log_level := level; log_message := message;
                              log_meta := meta |} ];
       console := console w;
       throttled := throttled w;
       throttle := throttle w |}).

(** [console.log(...args)] *)
Definition console_log (args : list string) : M unit :=
  modify (fun w =>
    {| requests := requests w; logs := logs w;
       console := console w ++ [args];
       throttled := throttled w;
       throttle := throttle w |}).

(** The axios instance: what the upstream does with a request, given the
    requests made before it.  [R] is the type the caller asserts for the
    body of a successful response. *)
Definition Transport (R : Type) : Type :=
  list AxiosRequestConfig -> AxiosRequestConfig -> Completion (AxiosResponse R).

(** [private logRateLimitInfo(remaining, total)] of the class [GithubApi],
    the function its constructor wraps in [throttle(..., 10 * 1000)].  It
    stands here, before the class, because the timer of the throttle runs
    it while a request is awaited. *)
Definition logRateLimitInfo (remaining total : JsNumber) : M unit :=
  log Info
    ("rate limit " +:+ numberToString remaining +:+ "/" +:+ numberToString total)
    (Some [("type", LStr "githubRateLimit");
           ("rateLimit", LObj [("remaining", LNum remaining);
                               ("total", LNum total)])]).

(** The event loop is free: the timer of the throttled logger may fire and
    run [logRateLimitInfo] on the arguments held back. *)
Definition await_timer (w : World) : World :=
  match throttle_timer (throttle w) with
  | (state, fired) =>
      let w' := {| requests := requests w; logs := logs w;
                   console := console w; throttled := throttled w;
                   throttle := state |} in
      match fired with
      | Some (remaining, total) => snd (logRateLimitInfo remaining total w')
      | None => w'
      end
  end.

(** The world when axios settles a request: [config] has been handed to
    axios, and the request has been awaited. *)
Definition record_request (config : AxiosRequestConfig) (w : World) : World :=
  await_timer
    {| requests := requests w ++ [config]; logs := logs w;
       console := console w; throttled := throttled w;
       throttle := throttle w |}.

(** [await this.ax(config)] *)
Definition call_ax {R} (ax : Transport R) (config : AxiosRequestConfig)
    : M (AxiosResponse R) :=
  fun w => (ax (requests w) config, record_request config w).

End Effects.

Arguments Return {A} a.
Arguments Throw {A} e.

Notation "x <- m ;; k" := (bind m (fun x => k))
  (at level 100, m at next level, right associativity).
Notation "m ;;; k" := (bind m (fun _ => k))
  (at level 100, right associativity).

(* ===================================================================== *)
(** ** The class [GithubApi] *)
(* ===================================================================== *)

(** [getCommitDate(commit)], the function above the class. *)
Definition getCommitDate {rt : JsRuntime} (commit : Commit) : JsDate :=
  let committerDate := newDate (person_date (commit_committer commit)) in
  let authorDate := newDate (person_date (commit_author commit)) in
  if date_gt committerDate authorDate then committerDate else authorDate.

Module GithubApi.
Section Methods.
Context {rt : JsRuntime}.

(** The wait handed to [throttle], in milliseconds. *)
Definition throttle_wait : Z := 10 * 1000.

(** [this.throttledLogRateLimitInfo] as the constructor creates it:
    [throttle((a, b) => this.logRateLimitInfo(a, b), 10 * 1000)]. *)
Definition newThrottledLogRateLimitInfo : Throttle :=
  throttle_create throttle_wait.

(** [this.throttledLogRateLimitInfo(a, b)]: the call is recorded, the
    throttle takes note of it, and on the leading edge it runs the wrapped
    [logRateLimitInfo] at once, on the arguments of the call. *)
Definition throttledLogRateLimitInfo (a b : JsNumber) : M unit :=
  fun w =>
    match throttle_call (throttle w) (a, b) with
    | (state, leading) =>
        let w' := {| requests := requests w; logs := logs w;
                     console := console w;
                     throttled := throttled w ++ [(a, b)];
                     throttle := state |} in
        if leading then logRateLimitInfo a b w' else (Return tt, w')
    end.

(** [private checkForRateLimitInfo(resp)] *)
Definition checkForRateLimitInfo {T} (resp : AxiosResponse T) : M unit :=
  match resp_headers resp with
  | Some headers =>
      if truthy_header (headers !! "x-ratelimit-limit")
         && truthy_header (headers !! "x-ratelimit-remaining")
      then
        throttledLogRateLimitInfo
          (parseFloat (header_value (headers !! "x-ratelimit-remaining")))
          (parseFloat (header_value (headers !! "x-ratelimit-limit")))
      else ret tt
  | None => ret tt
  end.

(** The request properties both debug entries carry under [data]. *)
Definition request_context (method url : string)
    (params body : option (list (string * JsVal))) : list (string * LogVal) :=
  [("method", LStr method); ("url", LStr url);
   ("params", LParams params); ("body", LParams body)].

(** The [catch] block of [req]. *)
Definition req_catch {R} (method url : string)
    (params body : option (list (string * JsVal))) (err : JsError)
    : M (AxiosResponse R) :=
  if isAxiosErrorResp err then
    match error_response err with
    | Some response =>
        checkForRateLimitInfo response ;;;
        log Debug "github api response error"
          (Some [("@type", LStr "githubApiResponseError");
                 ("status", LInt (resp_status response));
                 ("data", LObj (request_context method url params body ++
                    [("response", LObj
                       [("headers", LHeaders (resp_headers response));
                        ("body", LAny (resp_data response));
                        ("status", LInt (resp_status response));
                        ("statusText", LStr (resp_statusText response))])]))]) ;;;
        throw err
    | None => throw err (* excluded by [isAxiosErrorResp] *)
    end
  else if isAxiosErrorReq err then
    log Debug "github api request error"
      (Some [("@type", LStr "githubApiRequestError");
             ("errorMessage", LStr (error_message err));
             ("data", LObj (request_context method url params body))]) ;;;
    throw err
  else throw err.

(** [private async req<Result>(method, url, params?, body?)] *)
Definition req {R} (ax : Transport R) (method url : string)
    (params body : option (list (string * JsVal))) : M (AxiosResponse R) :=
  try_catch
    (resp <- call_ax ax {| cfg_method := method; cfg_url := url;
                           cfg_params := params; cfg_data := body |} ;;
     checkForRateLimitInfo resp ;;;
     ret resp)
    (req_catch method url params body).

(** [private async get<Result>(url, params?)] *)
Definition get {R} (ax : Transport R) (url : string)
    (params : option (list (string * JsVal))) : M (AxiosResponse R) :=
  req ax "get" url params None.

(** [private async post<Result>(url, params?, body?)] *)
Definition post {R} (ax : Transport R) (url : string)
    (params body : option (list (string * JsVal))) : M (AxiosResponse R) :=
  req ax "post" url params body.

(** What [compare] resolves to. *)
Record CompareResult := {
  totalMissingCommits : Z;
  missingCommits : list GithubApiCompareCommit;
}.

(** [public async compare(headRef, baseRef)] *)
Definition compare (ax : Transport GithubApiCompare) (headRef baseRef : string)
    : M CompareResult :=
  let headComponent := encodeURIComponent headRef in
  let baseComponent := encodeURIComponent baseRef in
  let url := "/repos/elastic/kibana/compare/" +:+ headComponent +:+ "..."
             +:+ baseComponent in
  resp <- get ax url None ;;
  let totalMissingCommits := ahead_by (resp_data resp) in
  let missingCommits := commits (resp_data resp) in
  if (totalMissingCommits >? 0) && Nat.eqb (length missingCommits) 0 then
    log Error "unexpected github response, expected oldest missing commit"
      (Some [("totalMissingCommits", LInt totalMissingCommits);
             ("respBody", LCompare (resp_data resp))]) ;;;
    throw (newError "Unexpected github response")
  else
    ret {| totalMissingCommits := totalMissingCommits;
           missingCommits := missingCommits |}.

(** [public async getCommitDate(ref)] *)
Definition getCommitDate (ax : Transport CommitResource) (ref : string)
    : M JsDate :=
  let refComponent := encodeURIComponent ref in
  resp <- get ax ("/repos/elastic/kibana/commits/" +:+ refComponent) None ;;
  ret (getCommitDate (res_commit (resp_data resp))).

(** The options object as it is sent: optional properties that are not set
    are absent. *)
Definition status_body (options : CommitStatusOptions) : list (string * JsVal) :=
  [("state", JStr match opt_state options with
                  | state_error => "error"
                  | state_pending => "pending"
                  | state_success => "success"
                  | state_failure => "failure"
                  end);
   ("context", JStr (opt_context options))]
  ++ match opt_description options with
     | Some d => [("description", JStr d)]
     | None => []
     end
  ++ match opt_target_url options with
     | Some u => [("target_url", JStr u)]
     | None => []
     end.

(** [public async setCommitStatus(ref, options)] *)
Definition setCommitStatus (ax : Transport JsVal) (ref : string)
    (options : CommitStatusOptions) : M unit :=
  let shaComponent := encodeURIComponent ref in
  let url := "/repos/elastic/kibana/statuses/" +:+ shaComponent in
  post ax url (Some []) (Some (status_body options)) ;;;
  ret tt.

(** [public async getPr(prId)]; [prId] arrives already converted by the
    template literal. *)
Definition getPr (ax : Transport GithubApiPr) (prId : string) : M GithubApiPr :=
  let prIdComponent := encodeURIComponent prId in
  resp <- get ax ("/repos/elastic/kibana/pulls/" +:+ prIdComponent) None ;;
  ret (resp_data resp).

(** *** [public async *ittrAllOpenPrs()]

    The generator is a state machine.  Between two steps it stands at the
    test of the [while] loop with the queue [urls], or inside the [for]
    loop over a fetched page with the records still to yield, or it has
    returned or thrown. *)
Inductive Generator : Type :=
  | AtLoopTest (urls : list (option string))
  | InPage (urls : list (option string))
           (page : AxiosResponse (list GithubApiPr))
           (rest : list GithubApiPr)
  | Completed.

(** What one step does. *)
Inductive Step : Type :=
  | Fetched
  | Yielded (pr : GithubApiPr)
  | Advanced
  | Done
  | Failed (e : JsError).

Definition fetchInitialPage (ax : Transport (list GithubApiPr))
    : M (AxiosResponse (list GithubApiPr)) :=
  log Info "fetching initial page of PRs" None ;;;
  get ax "/repos/elastic/kibana/pulls" (Some [("state", JStr "open")]).

Definition fetchNextPage (ax : Transport (list GithubApiPr)) (url : string)
    : M (AxiosResponse (list GithubApiPr)) :=
  console_log ["fetching page of PRs"; url] ;;;
  get ax url None.

(** [url !== null ? fetchNextPage(url) : fetchInitialPage()]; the [null] of
    the queue is [None]. *)
Definition fetchPage (ax : Transport (list GithubApiPr)) (url : option string)
    : M (AxiosResponse (list GithubApiPr)) :=
  match url with
  | Some url => fetchNextPage ax url
  | None => fetchInitialPage ax
  end.

(** The statements after the [for] loop: the link header is required and
    parsed, and a [next] relation is pushed on the queue.  Reading a
    property of undefined headers is a TypeError. *)
Definition checkLink (urls : list (option string))
    (page : AxiosResponse (list GithubApiPr)) : Step * Generator :=
  match resp_headers page with
  | None =>
      (Failed (newError "Cannot read property 'link' of undefined"), Completed)
  | Some headers =>
      if negb (truthy_header (headers !! "link")) then
        (Failed (newError "missing link header"), Completed)
      else
        match parseLinkHeader (header_value (headers !! "link")) with
        | None => (Failed (newError "unable to parse link header"), Completed)
        | Some links =>
            match links !! "next" with
            | Some next_url => (Advanced, AtLoopTest (urls ++ [Some next_url]))
            | None => (Advanced, AtLoopTest urls)
            end
        end
  end.

Definition step (ax : Transport (list GithubApiPr)) (g : Generator) (w : World)
    : (Step * Generator) * World :=
  match g with
  | AtLoopTest [] => ((Done, Completed), w)
  | AtLoopTest (url :: urls) =>
      match fetchPage ax url w with
      | (Return page, w') => ((Fetched, InPage urls page (resp_data page)), w')
      | (Throw e, w') => ((Failed e, Completed), w')
      end
  | InPage urls page (pr :: rest) => ((Yielded pr, InPage urls page rest), w)
  | InPage urls page [] => (checkLink urls page, w)
  | Completed => ((Done, Completed), w)
  end.

(** The configuration [fetchPage] hands to axios for an entry of the queue,
    through [get] and [req]. *)
Definition page_request (url : option string) : AxiosRequestConfig :=
  match url with
  | Some url =>
      {| cfg_method := "get"; cfg_url := url; cfg_params := None;
         cfg_data := None |}
  | None =>
      {| cfg_method := "get"; cfg_url := "/repos/elastic/kibana/pulls";
         cfg_params := Some [("state", JStr "open")]; cfg_data := None |}
  end.

(** The generator as [ittrAllOpenPrs()] creates it: [urls = [null]]. *)
Definition ittrAllOpenPrs : Generator := AtLoopTest [None].

(** How a traversal that is consumed to its end stops; [Suspended] is the
    generator left where the consumer stopped asking. *)
Inductive Outcome : Type :=
  | Finished
  | Raised (e : JsError)
  | Suspended (g : Generator).

(** [for await (const pr of generator) { ... }] for at most [fuel] steps of
    the generator: the records yielded, in order, and how it stopped. *)
Fixpoint drain (ax : Transport (list GithubApiPr)) (fuel : nat) (g : Generator)
    (w : World) : (list GithubApiPr * Outcome) * World :=
  match fuel with
  | O => (([], Suspended g), w)
  | S fuel' =>
      match step ax g w with
      | ((Yielded pr, g'), w') =>
          match drain ax fuel' g' w' with
          | ((prs, o), w'') => ((pr :: prs, o), w'')
          end
      | ((Done, _), w') => (([], Finished), w')
      | ((Failed e, _), w') => (([], Raised e), w')
      | ((_, g'), w') => drain ax fuel' g' w'
      end
  end.

End Methods.
End GithubApi.

(* ===================================================================== *)
(** ** The context cache *)
(* ===================================================================== *)

(** A [GithubApi] object as its constructor leaves it: the logger it writes
    to and the secret of its Authorization header.  A logger is named by
    the request context it belongs to. *)
Record GithubApiObject := { api_log : nat; api_secret : string }.

(** The process: the objects constructed so far (an object is known by its
    address, its index in [heap]), the entries of the cache (request
    context to address) and the configuration variable GITHUB_SECRET. *)
Record Process := {
  heap : list GithubApiObject;
  cached : gmap nat nat;
  GITHUB_SECRET : string;
}.

(** [new GithubApi(log, secret)]: a fresh address. *)
Definition newGithubApi (log : nat) (secret : string) (p : Process)
    : nat * Process :=
  (length (heap p),
   {| heap := heap p ++ [ {| api_log := log; api_secret := secret |} ];
      cached := cached p; GITHUB_SECRET := GITHUB_SECRET p |}).

(** Modelled from the spec: [getRequestLogger] of [src/lib/log.ts], which is
    not among the sources.  Section 4.6 of the specification: the client of
    a context is wired to that context's logging sink; here a sink is named
    by its context. *)
Definition getRequestLogger (ctx : nat) : nat := ctx.

(** Modelled from the spec: [makeContextCache] of [src/lib/req_cache.ts],
    which is not among the sources.  Section 4.6 of the specification: the
    cache maps a context key to a lazily constructed instance; the first
    access for a context constructs it, later accesses return the memoized
    instance, and an override assigns a given instance to a context. *)
Definition cache_get (factory : nat -> Process -> nat * Process) (ctx : nat)
    (p : Process) : nat * Process :=
  match cached p !! ctx with
  | Some instance => (instance, p)
  | None =>
      match factory ctx p with
      | (instance, p') =>
          (instance,
           {| heap := heap p'; cached := <[ctx := instance]> (cached p');
              GITHUB_SECRET := GITHUB_SECRET p' |})
      end
  end.

(** Modelled from the spec: the override operation [assignValue] of the
    cache [makeContextCache] returns (same missing file). *)
Definition cache_assignValue (ctx instance : nat) (p : Process) : Process :=
  {| heap := heap p; cached := <[ctx := instance]> (cached p);
     GITHUB_SECRET := GITHUB_SECRET p |}.

(** The factory handed to [makeContextCache('github api', ...)]. *)
Definition githubApiCache_factory (ctx : nat) (p : Process) : nat * Process :=
  newGithubApi (getRequestLogger ctx) (GITHUB_SECRET p) p.

(** [export const getGithubApi = githubApiCache.get] *)
Definition getGithubApi : nat -> Process -> nat * Process :=
  cache_get githubApiCache_factory.

(** [export const assignGithubApi = githubApiCache.assignValue] *)
Definition assignGithubApi : nat -> nat -> Process -> Process :=
  cache_assignValue.

(** A run of accesses, one per context of the list, in order. *)
Definition accesses (ctxs : list nat) (p : Process) : Process :=
  foldl (fun p ctx => snd (getGithubApi ctx p)) p ctxs.

(* ===================================================================== *)
(** ** Vocabulary for the traversal and the cache *)
(* ===================================================================== *)

Section Vocabulary.
Context {rt : JsRuntime}.

(** An entry as [logRateLimitInfo] writes them. *)
Definition rate_limit_info (entry : LogEntry) : Prop :=
  exists remaining total : JsNumber,
    entry =
      {| log_level := Info;
         log_message := "rate limit " +:+ numberToString remaining
                        +:+ "/" +:+ numberToString total;
         log_meta := Some [("type", LStr "githubRateLimit");
                           ("rateLimit", LObj [("remaining", LNum remaining);
                                               ("total", LNum total)])] |}.

(** A GET without a body, the only kind of request [get] makes. *)
Definition plain_get (config : AxiosRequestConfig) : Prop :=
  cfg_method config = "get" /\ cfg_data config = None.

(** From [w] to [w'] requests were added, all of them GETs without a body,
    and calls of the throttled logger, no more of them than requests. *)
Definition fetched_only (w w' : World) : Prop :=
  exists (made : list AxiosRequestConfig) (calls : list (JsNumber * JsNumber)),
    requests w' = requests w ++ made /\ Forall plain_get made
    /\ throttled w' = throttled w ++ calls
    /\ (length calls <= length made)%nat.

(** [n] steps of the generator, whatever they do. *)
Fixpoint advance (ax : Transport (list GithubApiPr)) (n : nat)
    (g : GithubApi.Generator) (w : World) : GithubApi.Generator * World :=
  match n with
  | O => (g, w)
  | S n' =>
      match GithubApi.step ax g w with
      | ((_, g'), w') => advance ax n' g' w'
      end
  end.

(** The queue [urls] of a generator holds at most one entry, and none while
    a page is being yielded. *)
Definition queue_bounded (g : GithubApi.Generator) : Prop :=
  match g with
  | GithubApi.AtLoopTest urls => (length urls <= 1)%nat
  | GithubApi.InPage urls _ _ => urls = []
  | GithubApi.Completed => True
  end.

(** The queue entry a list of visits starts from. *)
Definition queue_of (visits : list (option string * AxiosResponse (list GithubApiPr)))
    : list (option string) :=
  match visits with
  | [] => []
  | (url, _) :: _ => [url]
  end.

(** An upstream serves [visits], pairs of a queue entry and the page it
    gets: each request is answered by its page, each page has a link header
    that parses, the next relation of a page is the queue entry of the
    visit after it, and the last page has no next relation. *)
Fixpoint serves (ax : Transport (list GithubApiPr))
    (earlier : list AxiosRequestConfig)
    (visits : list (option string * AxiosResponse (list GithubApiPr))) : Prop :=
  match visits with
  | [] => True
  | (url, page) :: rest =>
      ax earlier (GithubApi.page_request url) = Return page
      /\ (exists headers link links,
            resp_headers page = Some headers /\ headers !! "link" = Some link
            /\ link <> EmptyString /\ parseLinkHeader link = Some links
            /\ match rest with
               | [] => links !! "next" = None
               | (next, _) :: _ => is_Some next /\ links !! "next" = next
               end)
      /\ serves ax (earlier ++ [GithubApi.page_request url]) rest
  end.

(** The steps the generator takes over [visits]: per page the fetch, one
    step per record and the link check, and the last test of the loop. *)
Fixpoint steps_of (visits : list (option string * AxiosResponse (list GithubApiPr)))
    : nat :=
  match visits with
  | [] => 1
  | (_, page) :: rest => S (length (resp_data page) + S (steps_of rest))
  end.

End Vocabulary.

(** Every cached address is the address of a constructed client, and no
    two contexts share an address. *)
Definition cache_consistent (p : Process) : Prop :=
  (forall ctx instance, cached p !! ctx = Some instance ->
     (instance < length (heap p))%nat)
  /\ (forall ctx1 ctx2 instance,
        cached p !! ctx1 = Some instance -> cached p !! ctx2 = Some instance ->
        ctx1 = ctx2).

(* ===================================================================== *)
(** ** A runtime and an upstream for the examples *)
(* ===================================================================== *)

Module Sample.

(** [Number.parseFloat] on the strings GitHub sends in its rate-limit
    headers, decimal digits; everything else is NaN here, [None]. *)
Fixpoint digits (s : string) (acc : Z) : option Z :=
  match s with
  | EmptyString => Some acc
  | String a rest =>
      let n := Z.of_N (N_of_ascii a) in
      if (48 <=? n) && (n <=? 57) then digits rest (10 * acc + (n - 48))
      else None
  end.

Definition decimal (s : string) : option Z :=
  if truthy_string s then digits s 0 else None.

Definition show (x : option Z) : string :=
  match x with
  | Some z => pretty z
  | None => "NaN"
  end.

(** [encodeURIComponent] on the bytes of a string: the unreserved
    characters stay, every other byte becomes a percent escape. *)
Definition unreserved (a : ascii) : bool :=
  let n := N_of_ascii a in
  ((48 <=? n) && (n <=? 57) || (65 <=? n) && (n <=? 90)
   || (97 <=? n) && (n <=? 122))%N
  || bool_decide (a ∈ ["-"; "_"; "."; "!"; "~"; "*"; "'"; "("; ")"]%char).

Definition hex (n : N) : ascii :=
  ascii_of_N (if (n <? 10)%N then 48 + n else 55 + n)%N.

Fixpoint percent_encode (s : string) : string :=
  match s with
  | EmptyString => EmptyString
  | String a rest =>
      if unreserved a then String a (percent_encode rest)
      else
        let n := N_of_ascii a in
        String "%" (String (hex (n / 16)) (String (hex (n mod 16))
          (percent_encode rest)))
  end.

(** [new Date(s)] on the two timestamps of the examples. *)
Definition date_table (s : string) : option Z :=
  if String.eqb s "2019-05-01T12:00:00Z" then Some 1556712000000
  else if String.eqb s "2019-05-03T08:30:00Z" then Some 1556872200000
  else None.

Definition page2_url : string :=
  "https://api.github.com/repositories/7833168/pulls?state=open&page=2".

Definition link_of_page1 : string :=
  "<https://api.github.com/repositories/7833168/pulls?state=open&page=2>; rel=next, <https://api.github.com/repositories/7833168/pulls?state=open&page=2>; rel=last".

Definition link_of_page2 : string :=
  "<https://api.github.com/repositories/7833168/pulls?state=open&page=1>; rel=prev, <https://api.github.com/repositories/7833168/pulls?state=open&page=1>; rel=first".

(** parse-link-header on the two link headers of the examples. *)
Definition link_table (s : string) : option (gmap string string) :=
  if String.eqb s link_of_page1 then
    Some {[ "next" := page2_url; "last" := page2_url ]}
  else if String.eqb s link_of_page2 then
    Some {[ "prev" := "https://api.github.com/repositories/7833168/pulls?state=open&page=1";
            "first" := "https://api.github.com/repositories/7833168/pulls?state=open&page=1" ]}
  else None.

(** A throttle in the examples: idle, or waiting for its timer with the
    arguments of the last call it held back.  A call on the idle throttle
    runs the function and starts the timer, a call on the waiting throttle
    is held back.  The requests of the examples are answered before the
    timer fires. *)
Inductive Pace : Type :=
  | Idle
  | Waiting (held : option (option Z * option Z)).

Definition pace_call (pace : Pace) (args : option Z * option Z) : Pace * bool :=
  match pace with
  | Idle => (Waiting None, true)
  | Waiting _ => (Waiting (Some args), false)
  end.

Definition pace_timer (pace : Pace) : Pace * option (option Z * option Z) :=
  (pace, None).

Definition runtime : JsRuntime :=
  {| JsNumber := option Z;
     parseFloat := decimal;
     numberToString := show;
     encodeURIComponent := percent_encode;
     dateParse := date_table;
     parseLinkHeader := link_table;
     Throttle := Pace;
     throttle_create := fun wait => Idle;
     throttle_call := pace_call;
     throttle_timer := pace_timer;
     throttle_leading := fun wait args => eq_refl |}.

(** The world of a client just constructed. *)
Definition world0 : @World runtime :=
  @Build_World runtime [] [] [] [] (GithubApi.newThrottledLogRateLimitInfo (rt:=runtime)).

(** The entry [logRateLimitInfo] writes. *)
Definition rate_limit_line (remaining total : Z) : @LogEntry runtime :=
  @Build_LogEntry runtime Info
    ("rate limit " +:+ pretty remaining +:+ "/" +:+ pretty total)
    (Some [("type", LStr "githubRateLimit");
           ("rateLimit", LObj [("remaining", @LNum runtime (Some remaining));
                               ("total", @LNum runtime (Some total))])]).

(** The world of a fresh client after one call of the throttled logger:
    the call is recorded, its line is written and the timer runs. *)
Definition called (remaining total : Z) : @World runtime :=
  @Build_World runtime [] [rate_limit_line remaining total] []
    [(Some remaining, Some total)] (Waiting None).

Definition tip (label sha : string) : PrTip :=
  {| tip_label := label; tip_ref := label; tip_sha := sha |}.

Definition pr (n : Z) : GithubApiPr :=
  {| pr_number := n; pr_title := "PR " +:+ pretty n; pr_body := "body";
     pr_created_at := "2019-05-01T12:00:00Z";
     pr_updated_at := "2019-05-03T08:30:00Z";
     pr_head := tip "feature" "0a1b2c"; pr_base := tip "master" "3d4e5f";
     pr_draft := false; pr_merged := false |}.

Definition rate_headers (remaining : string) : gmap string string :=
  {[ "x-ratelimit-limit" := "5000"; "x-ratelimit-remaining" := remaining ]}.

Definition page1 : AxiosResponse (list GithubApiPr) :=
  {| resp_data := [pr 101; pr 102; pr 103]; resp_status := 200;
     resp_statusText := "OK";
     resp_headers := Some (<["link" := link_of_page1]> (rate_headers "4999")) |}.

Definition page2 : AxiosResponse (list GithubApiPr) :=
  {| resp_data := [pr 104; pr 105]; resp_status := 200;
     resp_statusText := "OK";
     resp_headers := Some (<["link" := link_of_page2]> (rate_headers "4998")) |}.

(** An upstream with two pages of open pull requests. *)
Definition two_pages : Transport (list GithubApiPr) :=
  fun earlier config =>
    if String.eqb (cfg_url config) "/repos/elastic/kibana/pulls" then Return page1
    else if String.eqb (cfg_url config) page2_url then Return page2
    else Throw (newError "Request failed with status code 404").

(** A commit authored on 1 May 2019 and committed two days later. *)
Definition commit_response : AxiosResponse CommitResource :=
  {| resp_data :=
       {| res_commit :=
            {| commit_author := {| person_date := "2019-05-01T12:00:00Z" |};
               commit_committer := {| person_date := "2019-05-03T08:30:00Z" |} |} |};
     resp_status := 200; resp_statusText := "OK";
     resp_headers := Some (rate_headers "4997") |}.

Definition commit_upstream : Transport CommitResource :=
  fun earlier config => Return commit_response.

(** A compare response that announces three commits and lists none. *)
Definition anomalous_compare : AxiosResponse GithubApiCompare :=
  {| resp_data := {| ahead_by := 3; commits := [] |};
     resp_status := 200; resp_statusText := "OK";
     resp_headers := Some (rate_headers "4996") |}.

Definition anomalous_upstream : Transport GithubApiCompare :=
  fun earlier config => Return anomalous_compare.

(** Responses with both rate-limit headers: the quota used up, and a
    remaining header with nothing after the colon. *)
Definition exhausted : AxiosResponse JsVal :=
  {| resp_data := JNull; resp_status := 200; resp_statusText := "OK";
     resp_headers := Some (rate_headers "0") |}.

Definition blank_remaining : AxiosResponse JsVal :=
  {| resp_data := JNull; resp_status := 200; resp_statusText := "OK";
     resp_headers := Some (rate_headers EmptyString) |}.

(** The error axios throws for a response with status 422. *)
Definition unprocessable : AxiosResponse JsVal :=
  {| resp_data := JObj [("message", JStr "Validation Failed")];
     resp_status := 422; resp_statusText := "Unprocessable Entity";
     resp_headers := Some (rate_headers "4995") |}.

Definition error_422 : JsError :=
  ErrorObject "Request failed with status code 422" true (Some unprocessable).

Definition rejecting_upstream : Transport JsVal :=
  fun earlier config => Throw error_422.

(** The error axios throws when the connection is refused. *)
Definition error_refused : JsError :=
  ErrorObject "connect ECONNREFUSED 127.0.0.1:443" true None.

Definition unreachable_upstream : Transport JsVal :=
  fun earlier config => Throw error_refused.

(** A page of two records without a link header. *)
Definition page_without_link : AxiosResponse (list GithubApiPr) :=
  {| resp_data := [pr 201; pr 202]; resp_status := 200;
     resp_statusText := "OK"; resp_headers := Some (rate_headers "4994") |}.

Definition unlinked_upstream : Transport (list GithubApiPr) :=
  fun earlier config => Return page_without_link.

(** A compare response for a head that is not ahead of the base. *)
Definition up_to_date_compare : AxiosResponse GithubApiCompare :=
  {| resp_data := {| ahead_by := 0; commits := [] |};
     resp_status := 200; resp_statusText := "OK";
     resp_headers := Some (rate_headers "4993") |}.

Definition up_to_date_upstream : Transport GithubApiCompare :=
  fun earlier config => Return up_to_date_compare.

(** A response without rate-limit headers. *)
Definition plain_response : AxiosResponse JsVal :=
  {| resp_data := JNull; resp_status := 200; resp_statusText := "OK";
     resp_headers := Some ∅ |}.

(** A thrown value that is no axios error. *)
Definition error_other : JsError := newError "socket hang up".

Definition broken_upstream : Transport JsVal :=
  fun earlier config => Throw error_other.

(** A page of one record whose link header parse-link-header rejects. *)
Definition page_with_bad_link : AxiosResponse (list GithubApiPr) :=
  {| resp_data := [pr 301]; resp_status := 200; resp_statusText := "OK";
     resp_headers := Some {[ "link" := "next page" ]} |}.

Definition badly_linked_upstream : Transport (list GithubApiPr) :=
  fun earlier config => Return page_with_bad_link.

(** An upstream that answers every request with status 422, whatever body
    the caller expects. *)
Definition failing (R : Type) : Transport R :=
  fun earlier config => Throw error_422.

(** A compare response with a count of zero and a commit listed. *)
Definition lagging_compare : AxiosResponse GithubApiCompare :=
  {| resp_data :=
       {| ahead_by := 0;
          commits :=
            [ {| cc_sha := "0a1b2c";
                 cc_commit :=
                   {| commit_author := {| person_date := "2019-05-01T12:00:00Z" |};
                      commit_committer := {| person_date := "2019-05-03T08:30:00Z" |} |} |} ] |};
     resp_status := 200; resp_statusText := "OK";
     resp_headers := Some (rate_headers "4992") |}.

Definition lagging_upstream : Transport GithubApiCompare :=
  fun earlier config => Return lagging_compare.

(** A commit whose author date does not parse. *)
Definition commit_without_author_date : Commit :=
  {| commit_author := {| person_date := "yesterday" |};
     commit_committer := {| person_date := "2019-05-03T08:30:00Z" |} |}.

(** A page of one record whose link header has an empty value. *)
Definition page_with_empty_link : AxiosResponse (list GithubApiPr) :=
  {| resp_data := [pr 401]; resp_status := 200; resp_statusText := "OK";
     resp_headers := Some {[ "link" := EmptyString ]} |}.

Definition emptily_linked_upstream : Transport (list GithubApiPr) :=
  fun earlier config => Return page_with_empty_link.

(** A process that has constructed no client yet. *)
Definition fresh_process : Process :=
  {| heap := []; cached := ∅; GITHUB_SECRET := "0123456789abcdef" |}.

(** An upstream whose every page links to a next page. *)
Definition endless : Transport (list GithubApiPr) :=
  fun earlier config => Return page1.

End Sample.

(* ===================================================================== *)
(** ** Properties *)
(* ===================================================================== *)

Section Properties.
Context {rt : JsRuntime}.

(** *** The monitor and the dispatcher, step by step *)

Lemma throttledLogRateLimitInfo_effect (a b : JsNumber) (w : World) :
  GithubApi.throttledLogRateLimitInfo a b w =
    (Return tt,
     {| requests := requests w;
        logs := logs w ++
          (if snd (throttle_call (throttle w) (a, b))
           then [ {| log_level := Info;
                     log_message := "rate limit " +:+ numberToString a
                                    +:+ "/" +:+ numberToString b;
                     log_meta := Some [("type", LStr "githubRateLimit");
                                       ("rateLimit", LObj [("remaining", LNum a);
                                                           ("total", LNum b)])] |} ]
           else []);
        console := console w;
        throttled := throttled w ++ [(a, b)];
        throttle := fst (throttle_call (throttle w) (a, b)) |}).
Proof.
  unfold GithubApi.throttledLogRateLimitInfo.
  destruct (throttle_call (throttle w) (a, b)) as [state []]; simpl.
  - reflexivity.
  - rewrite app_nil_r. reflexivity.
Qed.

Lemma checkForRateLimitInfo_returns {T} (resp : AxiosResponse T) (w : World) :
  fst (GithubApi.checkForRateLimitInfo resp w) = Return tt.
Proof.
  unfold GithubApi.checkForRateLimitInfo.
  destruct (resp_headers resp) as [headers|]; [|reflexivity].
  destruct (truthy_header _ && truthy_header _); [|reflexivity].
  rewrite throttledLogRateLimitInfo_effect. reflexivity.
Qed.

(** The monitor leaves the requests and the console alone, and what it
    adds to the log are lines of [logRateLimitInfo]. *)
Lemma checkForRateLimitInfo_frame {T} (resp : AxiosResponse T) (w : World) :
  let w' := snd (GithubApi.checkForRateLimitInfo resp w) in
  requests w' = requests w /\ console w' = console w
  /\ exists lines, logs w' = logs w ++ lines /\ Forall rate_limit_info lines.
Proof.
  unfold GithubApi.checkForRateLimitInfo.
  destruct (resp_headers resp) as [headers|];
    [|repeat split; exists []; rewrite app_nil_r; split; [reflexivity|constructor]].
  destruct (truthy_header _ && truthy_header _);
    [|repeat split; exists []; rewrite app_nil_r; split; [reflexivity|constructor]].
  rewrite throttledLogRateLimitInfo_effect. simpl. repeat split.
  eexists. split; [reflexivity|].
  destruct (snd (throttle_call _ _)); [|constructor].
  constructor; [|constructor]. eexists _, _. reflexivity.
Qed.

Lemma checkForRateLimitInfo_requests {T} (resp : AxiosResponse T) (w : World) :
  requests (snd (GithubApi.checkForRateLimitInfo resp w)) = requests w.
Proof. apply (checkForRateLimitInfo_frame resp w). Qed.

Lemma checkForRateLimitInfo_console {T} (resp : AxiosResponse T) (w : World) :
  console (snd (GithubApi.checkForRateLimitInfo resp w)) = console w.
Proof. apply (checkForRateLimitInfo_frame resp w). Qed.

(** While a request is awaited only the timer of the throttle acts: it may
    write a line of [logRateLimitInfo]. *)
Lemma record_request_frame (config : AxiosRequestConfig) (w : World) :
  let w' := record_request config w in
  requests w' = requests w ++ [config] /\ console w' = console w
  /\ throttled w' = throttled w
  /\ exists lines, logs w' = logs w ++ lines /\ Forall rate_limit_info lines.
Proof.
  unfold record_request, await_timer. simpl.
  destruct (throttle_timer (throttle w)) as [state [[remaining total]|]]; simpl.
  - repeat split. eexists [_]. split; [reflexivity|].
    constructor; [|constructor]. eexists _, _. reflexivity.
  - repeat split. exists []. rewrite app_nil_r. split; [reflexivity|constructor].
Qed.

Lemma record_request_requests (config : AxiosRequestConfig) (w : World) :
  requests (record_request config w) = requests w ++ [config].
Proof. apply (record_request_frame config w). Qed.

Lemma record_request_console (config : AxiosRequestConfig) (w : World) :
  console (record_request config w) = console w.
Proof. apply (record_request_frame config w). Qed.

Lemma record_request_throttled (config : AxiosRequestConfig) (w : World) :
  throttled (record_request config w) = throttled w.
Proof. apply (record_request_frame config w). Qed.

Lemma req_fulfilled {R} (ax : Transport R) method url params body w resp :
  ax (requests w) {| cfg_method := method; cfg_url := url;
                     cfg_params := params; cfg_data := body |} = Return resp ->
  GithubApi.req ax method url params body w =
    (Return resp,
     snd (GithubApi.checkForRateLimitInfo resp
            (record_request {| cfg_method := method; cfg_url := url;
                               cfg_params := params; cfg_data := body |} w))).
Proof.
  intros Hax.
  unfold GithubApi.req, try_catch, bind, call_ax. rewrite Hax.
  pose proof (checkForRateLimitInfo_returns resp
    (record_request {| cfg_method := method; cfg_url := url;
                       cfg_params := params; cfg_data := body |} w)) as Hret.
  destruct (GithubApi.checkForRateLimitInfo resp _) as [c w'].
  simpl in *. subst c. reflexivity.
Qed.

Lemma req_rejected {R} (ax : Transport R) method url params body w err :
  ax (requests w) {| cfg_method := method; cfg_url := url;
                     cfg_params := params; cfg_data := body |} = Throw err ->
  GithubApi.req ax method url params body w =
    GithubApi.req_catch method url params body err
      (record_request {| cfg_method := method; cfg_url := url;
                         cfg_params := params; cfg_data := body |} w).
Proof.
  intros Hax.
  unfold GithubApi.req, try_catch, bind, call_ax. rewrite Hax. reflexivity.
Qed.

(** *** Commit date *)

(** C4: when the commit resource carries an author timestamp [T1] and a
    committer timestamp [T2], [getCommitDate(ref)] resolves to the date
    whose time value is [max T1 T2]: the committer date when it is strictly
    later than the author date, the author date otherwise, the tie
    included. *)
Theorem getCommitDate_later_of_author_and_committer
    (ax : Transport CommitResource) (ref : string) (w : World)
    (resp : AxiosResponse CommitResource) (T1 T2 : Z) :
  ax (requests w)
     {| cfg_method := "get";
        cfg_url := "/repos/elastic/kibana/commits/" +:+ encodeURIComponent ref;
        cfg_params := None; cfg_data := None |} = Return resp ->
  dateParse (person_date (commit_author (res_commit (resp_data resp)))) = Some T1 ->
  dateParse (person_date (commit_committer (res_commit (resp_data resp)))) = Some T2 ->
  fst (GithubApi.getCommitDate ax ref w) = Return {| timeValue := Some (Z.max T1 T2) |}
  /\ fst (GithubApi.getCommitDate ax ref w) =
       Return (if T2 >? T1
               then newDate (person_date (commit_committer (res_commit (resp_data resp))))
               else newDate (person_date (commit_author (res_commit (resp_data resp))))).
Proof.
  intros Hax Hauthor Hcommitter.
  unfold GithubApi.getCommitDate, GithubApi.get, bind.
  rewrite (req_fulfilled _ _ _ _ _ _ _ Hax). simpl.
  unfold getCommitDate, date_gt, newDate. simpl.
  rewrite Hauthor, Hcommitter.
  destruct (Z.gtb_spec T2 T1) as [Hlt|Hle].
  - split; [|reflexivity]. rewrite Z.max_r by lia. reflexivity.
  - split; [|reflexivity]. rewrite Z.max_l by lia. reflexivity.
Qed.

(** *** Compare *)

Lemma settled_lines {T} (resp : AxiosResponse T) config (w : World) :
  exists lines,
    logs (snd (GithubApi.checkForRateLimitInfo resp (record_request config w)))
      = logs w ++ lines
    /\ Forall rate_limit_info lines.
Proof.
  destruct (record_request_frame config w)
    as (_ & _ & _ & lines1 & Hlogs1 & Hlines1).
  destruct (checkForRateLimitInfo_frame resp (record_request config w))
    as (_ & _ & lines2 & Hlogs2 & Hlines2).
  exists (lines1 ++ lines2). rewrite Hlogs2, Hlogs1, <- app_assoc.
  split; [reflexivity|]. apply Forall_app. split; assumption.
Qed.

(** C1: on a compare response whose ahead-by count is positive and whose
    commits list is empty, [compare] writes the response body to the logger
    at error level, as the last entry, and throws; when the count is zero
    the response is accepted, also with an empty list, and [compare]
    resolves to the count and the list of the response without an entry of
    its own.  The only other entries written meanwhile are lines of the
    throttled rate-limit logger. *)
Theorem compare_checks_ahead_by_against_commits
    (ax : Transport GithubApiCompare) (headRef baseRef : string) (w : World)
    (resp : AxiosResponse GithubApiCompare) :
  ax (requests w)
     {| cfg_method := "get";
        cfg_url := "/repos/elastic/kibana/compare/" +:+ encodeURIComponent headRef
                   +:+ "..." +:+ encodeURIComponent baseRef;
        cfg_params := None; cfg_data := None |} = Return resp ->
  (0 < ahead_by (resp_data resp) -> commits (resp_data resp) = [] ->
     fst (GithubApi.compare ax headRef baseRef w)
       = Throw (newError "Unexpected github response")
     /\ exists lines,
          Forall rate_limit_info lines
          /\ logs (snd (GithubApi.compare ax headRef baseRef w))
             = logs w ++ lines ++
               [ {| log_level := Error;
                    log_message := "unexpected github response, expected oldest missing commit";
                    log_meta := Some [("totalMissingCommits", LInt (ahead_by (resp_data resp)));
                                      ("respBody", LCompare (resp_data resp))] |} ])
  /\ (ahead_by (resp_data resp) = 0 ->
     fst (GithubApi.compare ax headRef baseRef w)
       = Return {| GithubApi.totalMissingCommits := ahead_by (resp_data resp);
                   GithubApi.missingCommits := commits (resp_data resp) |}
     /\ exists lines,
          Forall rate_limit_info lines
          /\ logs (snd (GithubApi.compare ax headRef baseRef w)) = logs w ++ lines).
Proof.
  intros Hax.
  unfold GithubApi.compare, GithubApi.get, bind.
  rewrite (req_fulfilled _ _ _ _ _ _ _ Hax).
  destruct (settled_lines resp
      {| cfg_method := "get";
         cfg_url := "/repos/elastic/kibana/compare/" +:+ encodeURIComponent headRef
                    +:+ "..." +:+ encodeURIComponent baseRef;
         cfg_params := None; cfg_data := None |} w) as (lines & Hlogs & Hlines).
  set (w1 := snd (GithubApi.checkForRateLimitInfo resp _)) in *.
  split.
  - intros Hpos Hnil. rewrite Hnil. simpl.
    destruct (Z.gtb_spec (ahead_by (resp_data resp)) 0) as [_|Hle]; [|lia].
    simpl. split; [reflexivity|]. exists lines. split; [exact Hlines|].
    rewrite Hlogs, <- app_assoc. reflexivity.
  - intros Hzero. rewrite Hzero. simpl. split; [reflexivity|].
    exists lines. split; [exact Hlines|exact Hlogs].
Qed.

(** *** Rate-limit monitor *)

Lemma truthy_string_true (s : string) : s <> EmptyString -> truthy_string s = true.
Proof. destruct s; [congruence|reflexivity]. Qed.

Lemma checkForRateLimitInfo_calls {T} (resp : AxiosResponse T) (w : World)
    (limit remaining : string) :
  response_header resp "x-ratelimit-limit" = Some limit ->
  response_header resp "x-ratelimit-remaining" = Some remaining ->
  limit <> EmptyString -> remaining <> EmptyString ->
  GithubApi.checkForRateLimitInfo resp w =
    (Return tt,
     {| requests := requests w;
        logs := logs w ++
          (if snd (throttle_call (throttle w) (parseFloat remaining, parseFloat limit))
           then [ {| log_level := Info;
                     log_message := "rate limit " +:+ numberToString (parseFloat remaining)
                                    +:+ "/" +:+ numberToString (parseFloat limit);
                     log_meta := Some [("type", LStr "githubRateLimit");
                                       ("rateLimit",
                                        LObj [("remaining", LNum (parseFloat remaining));
                                              ("total", LNum (parseFloat limit))])] |} ]
           else []);
        console := console w;
        throttled := throttled w ++ [(parseFloat remaining, parseFloat limit)];
        throttle := fst (throttle_call (throttle w)
                           (parseFloat remaining, parseFloat limit)) |}).
Proof.
  unfold response_header, GithubApi.checkForRateLimitInfo.
  intros Hl Hr Hlne Hrne.
  destruct (resp_headers resp) as [headers|]; [|discriminate].
  rewrite Hl, Hr. simpl.
  rewrite (truthy_string_true _ Hlne), (truthy_string_true _ Hrne). simpl.
  apply throttledLogRateLimitInfo_effect.
Qed.

(** On a client whose throttled logger has not been called yet, the call
    of the monitor is the first one and its line is written at once. *)
Lemma checkForRateLimitInfo_first_call {T} (resp : AxiosResponse T) (w : World)
    (limit remaining : string) :
  response_header resp "x-ratelimit-limit" = Some limit ->
  response_header resp "x-ratelimit-remaining" = Some remaining ->
  limit <> EmptyString -> remaining <> EmptyString ->
  throttle w = GithubApi.newThrottledLogRateLimitInfo ->
  logs (snd (GithubApi.checkForRateLimitInfo resp w)) =
    logs w ++
    [ {| log_level := Info;
         log_message := "rate limit " +:+ numberToString (parseFloat remaining)
                        +:+ "/" +:+ numberToString (parseFloat limit);
         log_meta := Some [("type", LStr "githubRateLimit");
                           ("rateLimit",
                            LObj [("remaining", LNum (parseFloat remaining));
                                  ("total", LNum (parseFloat limit))])] |} ].
Proof.
  intros Hl Hr Hlne Hrne Hfresh.
  rewrite (checkForRateLimitInfo_calls resp w limit remaining Hl Hr Hlne Hrne).
  simpl. rewrite Hfresh. unfold GithubApi.newThrottledLogRateLimitInfo.
  rewrite throttle_leading. reflexivity.
Qed.

Lemma checkForRateLimitInfo_skips {T} (resp : AxiosResponse T) (w : World) :
  truthy_header (response_header resp "x-ratelimit-limit") = false
  \/ truthy_header (response_header resp "x-ratelimit-remaining") = false ->
  GithubApi.checkForRateLimitInfo resp w = (Return tt, w).
Proof.
  unfold response_header, GithubApi.checkForRateLimitInfo.
  intros Hfalsy.
  destruct (resp_headers resp) as [headers|]; [|reflexivity].
  destruct Hfalsy as [H|H]; rewrite H; [reflexivity|].
  rewrite andb_false_r. reflexivity.
Qed.

(** C6, amended: when both rate-limit headers are there with values that
    are not empty, the monitor calls the throttled logger with [parseFloat]
    of the remaining value and of the limit value, in this order, and
    returns.  If the throttle lets the call through, the line "rate limit
    {remaining}/{total}", at info level and tagged with the type
    githubRateLimit, is in the log when the monitor returns; if it does
    not, nothing is written by the call.  The first call on a client is
    always let through.  When either header is missing the monitor does
    nothing and returns. *)
Theorem rate_limit_monitor_contract {T} (resp : AxiosResponse T) (w : World) :
  (forall limit remaining : string,
     response_header resp "x-ratelimit-limit" = Some limit ->
     response_header resp "x-ratelimit-remaining" = Some remaining ->
     limit <> EmptyString -> remaining <> EmptyString ->
     GithubApi.checkForRateLimitInfo resp w =
       (Return tt,
        {| requests := requests w;
           logs := logs w ++
             (if snd (throttle_call (throttle w)
                        (parseFloat remaining, parseFloat limit))
              then [ {| log_level := Info;
                        log_message := "rate limit "
                                       +:+ numberToString (parseFloat remaining)
                                       +:+ "/" +:+ numberToString (parseFloat limit);
                        log_meta := Some [("type", LStr "githubRateLimit");
                                          ("rateLimit",
                                           LObj [("remaining", LNum (parseFloat remaining));
                                                 ("total", LNum (parseFloat limit))])] |} ]
              else []);
           console := console w;
           throttled := throttled w ++ [(parseFloat remaining, parseFloat limit)];
           throttle := fst (throttle_call (throttle w)
                              (parseFloat remaining, parseFloat limit)) |})
     /\ (throttle w = GithubApi.newThrottledLogRateLimitInfo ->
         logs (snd (GithubApi.checkForRateLimitInfo resp w)) =
           logs w ++
           [ {| log_level := Info;
                log_message := "rate limit "
                               +:+ numberToString (parseFloat remaining)
                               +:+ "/" +:+ numberToString (parseFloat limit);
                log_meta := Some [("type", LStr "githubRateLimit");
                                  ("rateLimit",
                                   LObj [("remaining", LNum (parseFloat remaining));
                                         ("total", LNum (parseFloat limit))])] |} ]))
  /\ (response_header resp "x-ratelimit-limit" = None
      \/ response_header resp "x-ratelimit-remaining" = None ->
      GithubApi.checkForRateLimitInfo resp w = (Return tt, w)).
Proof.
  split.
  - intros limit remaining Hl Hr Hlne Hrne. split.
    + apply (checkForRateLimitInfo_calls resp w limit remaining Hl Hr Hlne Hrne).
    + apply (checkForRateLimitInfo_first_call resp w limit remaining Hl Hr Hlne Hrne).
  - intros Hmissing. apply checkForRateLimitInfo_skips.
    destruct Hmissing as [H|H]; rewrite H; auto.
Qed.

(** C10, amended: the monitor tests the header values for truthiness, so
    it does nothing when a rate-limit header is there with the empty string
    as its value; the string "0" is not empty, hence truthy, and a
    remaining count of "0" is handed to the throttled logger like any
    other: on a client whose throttled logger has not been called yet the
    line "rate limit {0}/{total}" is written at once. *)
Theorem rate_limit_monitor_tests_truthiness {T} (resp : AxiosResponse T) (w : World) :
  (response_header resp "x-ratelimit-limit" = Some EmptyString
   \/ response_header resp "x-ratelimit-remaining" = Some EmptyString ->
   GithubApi.checkForRateLimitInfo resp w = (Return tt, w))
  /\ (forall limit : string,
      response_header resp "x-ratelimit-limit" = Some limit ->
      limit <> EmptyString ->
      response_header resp "x-ratelimit-remaining" = Some "0" ->
      throttled (snd (GithubApi.checkForRateLimitInfo resp w)) =
        throttled w ++ [(parseFloat "0", parseFloat limit)]
      /\ (throttle w = GithubApi.newThrottledLogRateLimitInfo ->
          logs (snd (GithubApi.checkForRateLimitInfo resp w)) =
            logs w ++
            [ {| log_level := Info;
                 log_message := "rate limit " +:+ numberToString (parseFloat "0")
                                +:+ "/" +:+ numberToString (parseFloat limit);
                 log_meta := Some [("type", LStr "githubRateLimit");
                                   ("rateLimit",
                                    LObj [("remaining", LNum (parseFloat "0"));
                                          ("total", LNum (parseFloat limit))])] |} ])).
Proof.
  split.
  - intros Hempty. apply checkForRateLimitInfo_skips.
    destruct Hempty as [H|H]; rewrite H; auto.
  - intros limit Hl Hlne Hr.
    assert (Hne : "0" <> EmptyString) by discriminate.
    split.
    + rewrite (checkForRateLimitInfo_calls resp w limit "0" Hl Hr Hlne Hne).
      reflexivity.
    + apply (checkForRateLimitInfo_first_call resp w limit "0" Hl Hr Hlne Hne).
Qed.

(** *** Request dispatcher *)

Lemma isAxiosErrorResp_inv (err : JsError) :
  isAxiosErrorResp err = true ->
  exists message response, err = ErrorObject message true (Some response).
Proof.
  destruct err as [|message [] [response|]]; try discriminate.
  intros _. eauto.
Qed.

Lemma isAxiosErrorResp_false_inv (err : JsError) :
  isAxiosErrorResp err = false -> isAxiosErrorReq err = true ->
  exists message, err = ErrorObject message true None.
Proof.
  destruct err as [|message [] [response|]]; try discriminate.
  intros _ _. eauto.
Qed.

(** The catch block on a response-level failure: the monitor first, then
    the debug entry, then the same error again. *)
Lemma req_catch_response {R} method url params body message response (w : World) :
  GithubApi.req_catch (R:=R) method url params body
      (ErrorObject message true (Some response)) w =
    (Throw (ErrorObject message true (Some response)),
     snd (log Debug "github api response error"
       (Some [("@type", LStr "githubApiResponseError");
              ("status", LInt (resp_status response));
              ("data", LObj
                 [("method", LStr method); ("url", LStr url);
                  ("params", LParams params); ("body", LParams body);
                  ("response", LObj
                     [("headers", LHeaders (resp_headers response));
                      ("body", LAny (resp_data response));
                      ("status", LInt (resp_status response));
                      ("statusText", LStr (resp_statusText response))])])])
       (snd (GithubApi.checkForRateLimitInfo response w)))).
Proof.
  unfold GithubApi.req_catch, bind. simpl.
  pose proof (checkForRateLimitInfo_returns response w) as Hret.
  destruct (GithubApi.checkForRateLimitInfo response w) as [c w'].
  simpl in *. subst c. reflexivity.
Qed.

(** C5: whatever axios throws is thrown again by [req], unchanged.  Before
    that, an error with a request and a response is logged at debug level
    with the type githubApiResponseError, the method, url, params and body
    of the request and the status, status text, headers and body of the
    response; an error with a request and no response is logged at debug
    level with the type githubApiRequestError, the method, url, params and
    body and the message of the error; for any other error [req] logs
    nothing and does nothing else.  The debug entry is the last entry; the
    only entries written before it are lines of the throttled rate-limit
    logger. *)
Theorem req_classifies_logs_and_rethrows {R} (ax : Transport R)
    (method url : string) (params body : option (list (string * JsVal)))
    (w : World) (err : JsError) :
  ax (requests w) {| cfg_method := method; cfg_url := url;
                     cfg_params := params; cfg_data := body |} = Throw err ->
  fst (GithubApi.req ax method url params body w) = Throw err
  /\ (forall response,
        isAxiosErrorResp err = true -> error_response err = Some response ->
        exists lines,
          Forall rate_limit_info lines
          /\ logs (snd (GithubApi.req ax method url params body w)) =
          logs w ++ lines ++
          [ {| log_level := Debug;
               log_message := "github api response error";
               log_meta := Some
                 [("@type", LStr "githubApiResponseError");
                  ("status", LInt (resp_status response));
                  ("data", LObj
                     [("method", LStr method); ("url", LStr url);
                      ("params", LParams params); ("body", LParams body);
                      ("response", LObj
                         [("headers", LHeaders (resp_headers response));
                          ("body", LAny (resp_data response));
                          ("status", LInt (resp_status response));
                          ("statusText", LStr (resp_statusText response))])])] |} ])
  /\ (isAxiosErrorResp err = false -> isAxiosErrorReq err = true ->
        exists lines,
          Forall rate_limit_info lines
          /\ logs (snd (GithubApi.req ax method url params body w)) =
          logs w ++ lines ++
          [ {| log_level := Debug;
               log_message := "github api request error";
               log_meta := Some
                 [("@type", LStr "githubApiRequestError");
                  ("errorMessage", LStr (error_message err));
                  ("data", LObj
                     [("method", LStr method); ("url", LStr url);
                      ("params", LParams params); ("body", LParams body)])] |} ])
  /\ (isAxiosErrorReq err = false ->
        snd (GithubApi.req ax method url params body w) =
          record_request {| cfg_method := method; cfg_url := url;
                            cfg_params := params; cfg_data := body |} w).
Proof.
  intros Hax. rewrite (req_rejected _ _ _ _ _ _ _ Hax).
  split; [|split; [|split]].
  - destruct err as [|message [] [response|]]; [reflexivity| |reflexivity..].
    rewrite req_catch_response. reflexivity.
  - intros response Hresp Hsome.
    destruct (isAxiosErrorResp_inv _ Hresp) as (message & response' & ->).
    simpl in Hsome. injection Hsome as ->.
    rewrite req_catch_response. simpl.
    destruct (settled_lines response
                {| cfg_method := method; cfg_url := url;
                   cfg_params := params; cfg_data := body |} w)
      as (lines & Hlogs & Hlines).
    exists lines. split; [exact Hlines|].
    rewrite Hlogs, <- app_assoc. reflexivity.
  - intros Hresp Hreq.
    destruct (isAxiosErrorResp_false_inv _ Hresp Hreq) as (message & ->).
    destruct (record_request_frame
                {| cfg_method := method; cfg_url := url;
                   cfg_params := params; cfg_data := body |} w)
      as (_ & _ & _ & lines & Hlogs & Hlines).
    exists lines. split; [exact Hlines|].
    simpl. rewrite Hlogs, <- app_assoc. reflexivity.
  - intros Hreq. destruct err as [|message [] response]; try discriminate;
      reflexivity.
Qed.

(** C7: a response that [req] obtains goes through the rate-limit monitor
    before [req] returns it, and the response of a response-level failure
    goes through it before the error is logged and thrown again; on any
    other failure, a request-level one included, the monitor is not called
    and the throttled logger sees nothing. *)
Theorem req_feeds_rate_limit_monitor {R} (ax : Transport R)
    (method url : string) (params body : option (list (string * JsVal)))
    (w : World) :
  let config := {| cfg_method := method; cfg_url := url;
                   cfg_params := params; cfg_data := body |} in
  (forall resp, ax (requests w) config = Return resp ->
     GithubApi.req ax method url params body w =
       (Return resp,
        snd (GithubApi.checkForRateLimitInfo resp (record_request config w))))
  /\ (forall err response, ax (requests w) config = Throw err ->
     isAxiosErrorResp err = true -> error_response err = Some response ->
     fst (GithubApi.req ax method url params body w) = Throw err
     /\ throttled (snd (GithubApi.req ax method url params body w)) =
        throttled (snd (GithubApi.checkForRateLimitInfo response
                          (record_request config w))))
  /\ (forall err, ax (requests w) config = Throw err ->
     isAxiosErrorResp err = false ->
     fst (GithubApi.req ax method url params body w) = Throw err
     /\ throttled (snd (GithubApi.req ax method url params body w)) = throttled w).
Proof.
  intros config. split; [|split].
  - intros resp Hax. apply req_fulfilled. exact Hax.
  - intros err response Hax Hresp Hsome.
    rewrite (req_rejected _ _ _ _ _ _ _ Hax).
    destruct (isAxiosErrorResp_inv _ Hresp) as (message & response' & ->).
    simpl in Hsome. injection Hsome as ->.
    rewrite req_catch_response. split; reflexivity.
  - intros err Hax Hresp.
    rewrite (req_rejected _ _ _ _ _ _ _ Hax).
    destruct err as [|message [] [response|]]; try discriminate;
      (split; [reflexivity|]); simpl; apply record_request_throttled.
Qed.

(** *** Traversal of the open pull requests *)

Lemma fetchPage_fulfilled (ax : Transport (list GithubApiPr)) url (w : World) page :
  ax (requests w) (GithubApi.page_request url) = Return page ->
  fst (GithubApi.fetchPage ax url w) = Return page
  /\ requests (snd (GithubApi.fetchPage ax url w)) = requests w ++ [GithubApi.page_request url].
Proof.
  intros Hax.
  destruct url as [url|]; simpl in Hax;
    unfold GithubApi.fetchPage, GithubApi.fetchNextPage,
      GithubApi.fetchInitialPage, GithubApi.get, bind; simpl.
  - erewrite req_fulfilled by exact Hax. cbn [fst snd].
    split; [reflexivity|].
    rewrite checkForRateLimitInfo_requests, record_request_requests. reflexivity.
  - erewrite req_fulfilled by exact Hax. cbn [fst snd].
    split; [reflexivity|].
    rewrite checkForRateLimitInfo_requests, record_request_requests. reflexivity.
Qed.

(** The records of a page are yielded in order before the link header is
    looked at. *)
Lemma drain_yields (ax : Transport (list GithubApiPr)) urls page (w : World) :
  forall (rest : list GithubApiPr) (fuel : nat),
    GithubApi.drain ax (length rest + fuel) (GithubApi.InPage urls page rest) w =
    match GithubApi.drain ax fuel (GithubApi.InPage urls page []) w with
    | ((prs, o), w') => ((rest ++ prs, o), w')
    end.
Proof.
  induction rest as [|pr rest IH]; intros fuel; simpl.
  - destruct (GithubApi.drain ax fuel _ w) as [[prs o] w']. reflexivity.
  - rewrite IH.
    destruct (GithubApi.drain ax fuel _ w) as [[prs o] w']. reflexivity.
Qed.

(** A page whose link check fails: its records, then the error. *)
Lemma drain_page_failed (ax : Transport (list GithubApiPr)) url urls (w : World)
    page e g (fuel : nat) :
  fst (GithubApi.fetchPage ax url w) = Return page ->
  GithubApi.checkLink urls page = (GithubApi.Failed e, g) ->
  (length (resp_data page) + 2 <= fuel)%nat ->
  GithubApi.drain ax fuel (GithubApi.AtLoopTest (url :: urls)) w =
    ((resp_data page, GithubApi.Raised e), snd (GithubApi.fetchPage ax url w)).
Proof.
  intros Hfetch Hlink Hfuel.
  replace fuel with (S (length (resp_data page) + S (fuel - length (resp_data page) - 2)))%nat
    by lia.
  cbn [GithubApi.drain GithubApi.step].
  destruct (GithubApi.fetchPage ax url w) as [c w1]. simpl in Hfetch. subst c.
  rewrite drain_yields. simpl. rewrite Hlink.
  rewrite app_nil_r. reflexivity.
Qed.

(** A page whose link check passes: its records, then the rest of the
    traversal from the queue the check leaves. *)
Lemma drain_page_advanced (ax : Transport (list GithubApiPr)) url urls (w : World)
    page g (fuel : nat) :
  fst (GithubApi.fetchPage ax url w) = Return page ->
  GithubApi.checkLink urls page = (GithubApi.Advanced, g) ->
  GithubApi.drain ax (S (length (resp_data page) + S fuel))
      (GithubApi.AtLoopTest (url :: urls)) w =
    match GithubApi.drain ax fuel g (snd (GithubApi.fetchPage ax url w)) with
    | ((prs, o), w') => ((resp_data page ++ prs, o), w')
    end.
Proof.
  intros Hfetch Hlink.
  cbn [GithubApi.drain GithubApi.step].
  destruct (GithubApi.fetchPage ax url w) as [c w1]. simpl in Hfetch. subst c.
  rewrite drain_yields. simpl. rewrite Hlink. reflexivity.
Qed.

Lemma checkLink_parsed urls (page : AxiosResponse (list GithubApiPr))
    headers link links :
  resp_headers page = Some headers -> headers !! "link" = Some link ->
  link <> EmptyString -> parseLinkHeader link = Some links ->
  GithubApi.checkLink urls page =
    (GithubApi.Advanced,
     GithubApi.AtLoopTest match links !! "next" with
                          | Some next_url => urls ++ [Some next_url]
                          | None => urls
                          end).
Proof.
  intros Hheaders Hlink Hne Hparse. unfold GithubApi.checkLink.
  rewrite Hheaders, Hlink. simpl.
  rewrite (truthy_string_true _ Hne). simpl. rewrite Hparse.
  destruct (links !! "next"); reflexivity.
Qed.

(** C3: when a page of the traversal arrives without a link header, the
    traversal yields the records of that page in the order received and
    then throws "missing link header"; when the link header is there and
    parse-link-header returns null for it, the traversal likewise yields
    the records and then throws "unable to parse link header".  In both
    cases the request for that page is the last one made, whatever is left
    in the queue and however long the consumer keeps asking. *)
Theorem traversal_fails_after_page_without_usable_link
    (ax : Transport (list GithubApiPr)) (url : option string)
    (urls : list (option string)) (w : World)
    (page : AxiosResponse (list GithubApiPr)) (headers : gmap string string)
    (fuel : nat) :
  ax (requests w) (GithubApi.page_request url) = Return page ->
  resp_headers page = Some headers ->
  (length (resp_data page) + 2 <= fuel)%nat ->
  let result := GithubApi.drain ax fuel (GithubApi.AtLoopTest (url :: urls)) w in
  (headers !! "link" = None ->
     fst result = (resp_data page, GithubApi.Raised (newError "missing link header"))
     /\ requests (snd result) = requests w ++ [GithubApi.page_request url])
  /\ (forall link : string,
     headers !! "link" = Some link -> link <> EmptyString ->
     parseLinkHeader link = None ->
     fst result = (resp_data page,
                   GithubApi.Raised (newError "unable to parse link header"))
     /\ requests (snd result) = requests w ++ [GithubApi.page_request url]).
Proof.
  intros Hax Hheaders Hfuel result.
  destruct (fetchPage_fulfilled ax url w page Hax) as [Hfetch Hreq].
  split.
  - intros Hnone. subst result.
    rewrite (drain_page_failed ax url urls w page
               (newError "missing link header") GithubApi.Completed fuel Hfetch);
      [split; [reflexivity|exact Hreq]| |exact Hfuel].
    unfold GithubApi.checkLink. rewrite Hheaders, Hnone. reflexivity.
  - intros link Hlink Hne Hparse. subst result.
    rewrite (drain_page_failed ax url urls w page
               (newError "unable to parse link header") GithubApi.Completed
               fuel Hfetch);
      [split; [reflexivity|exact Hreq]| |exact Hfuel].
    unfold GithubApi.checkLink. rewrite Hheaders, Hlink. simpl.
    rewrite (truthy_string_true _ Hne). simpl. rewrite Hparse. reflexivity.
Qed.

(** C2: against an upstream whose first page has three records and a link
    header with a next relation, and whose second page has two records and
    a link header without one, the traversal yields the five records, those
    of the first page first, each page in the order received, and ends;
    it makes two requests, the first for the open pull requests and the
    second with the url of the next relation as its url, unchanged. *)
Theorem traversal_of_two_pages
    (ax : Transport (list GithubApiPr)) (w : World)
    (page1 page2 : AxiosResponse (list GithubApiPr))
    (a b c d e : GithubApiPr)
    (headers1 headers2 : gmap string string) (link1 link2 : string)
    (links1 links2 : gmap string string) (next_url : string) (fuel : nat) :
  ax (requests w) (GithubApi.page_request None) = Return page1 ->
  resp_data page1 = [a; b; c] ->
  resp_headers page1 = Some headers1 -> headers1 !! "link" = Some link1 ->
  link1 <> EmptyString -> parseLinkHeader link1 = Some links1 ->
  links1 !! "next" = Some next_url ->
  ax (requests w ++ [GithubApi.page_request None])
     (GithubApi.page_request (Some next_url)) = Return page2 ->
  resp_data page2 = [d; e] ->
  resp_headers page2 = Some headers2 -> headers2 !! "link" = Some link2 ->
  link2 <> EmptyString -> parseLinkHeader link2 = Some links2 ->
  links2 !! "next" = None ->
  (10 <= fuel)%nat ->
  let result := GithubApi.drain ax fuel GithubApi.ittrAllOpenPrs w in
  fst result = ([a; b; c; d; e], GithubApi.Finished)
  /\ requests (snd result) =
       requests w ++ [GithubApi.page_request None;
                      {| cfg_method := "get"; cfg_url := next_url;
                         cfg_params := None; cfg_data := None |}].
Proof.
  intros Hax1 Hdata1 Hh1 Hl1 Hne1 Hparse1 Hnext1
         Hax2 Hdata2 Hh2 Hl2 Hne2 Hparse2 Hnext2 Hfuel result.
  destruct (fetchPage_fulfilled ax None w page1 Hax1) as [Hfetch1 Hreq1].
  pose proof (checkLink_parsed [] page1 headers1 link1 links1 Hh1 Hl1 Hne1 Hparse1)
    as Hcheck1.
  rewrite Hnext1 in Hcheck1. simpl in Hcheck1.
  set (w1 := snd (GithubApi.fetchPage ax None w)) in *.
  rewrite <- Hreq1 in Hax2.
  destruct (fetchPage_fulfilled ax (Some next_url) w1 page2 Hax2) as [Hfetch2 Hreq2].
  pose proof (checkLink_parsed [] page2 headers2 link2 links2 Hh2 Hl2 Hne2 Hparse2)
    as Hcheck2.
  rewrite Hnext2 in Hcheck2.
  subst result. unfold GithubApi.ittrAllOpenPrs.
  replace fuel with (S (length (resp_data page1)
                        + S (S (length (resp_data page2) + S (S (fuel - 10))))))%nat
    by (rewrite Hdata1, Hdata2; simpl; lia).
  rewrite (drain_page_advanced ax None [] w page1 _ _ Hfetch1 Hcheck1).
  fold w1.
  rewrite (drain_page_advanced ax (Some next_url) [] w1 page2 _ _ Hfetch2 Hcheck2).
  cbn [GithubApi.drain GithubApi.step fst snd].
  rewrite Hdata1, Hdata2, Hreq2, Hreq1, <- app_assoc. split; reflexivity.
Qed.

End Properties.

(** *** Context cache *)

Lemma getGithubApi_cached (p : Process) (ctx instance : nat) :
  cached p !! ctx = Some instance -> getGithubApi ctx p = (instance, p).
Proof.
  intros Hhit. unfold getGithubApi, cache_get. rewrite Hhit. reflexivity.
Qed.

Lemma getGithubApi_keeps (p : Process) (ctx other instance : nat) :
  cached p !! ctx = Some instance ->
  cached (snd (getGithubApi other p)) !! ctx = Some instance.
Proof.
  intros Hhit. unfold getGithubApi, cache_get.
  destruct (cached p !! other) as [found|] eqn:Hother; simpl; [exact Hhit|].
  rewrite lookup_insert_ne; [exact Hhit|].
  intros ->. congruence.
Qed.

Lemma accesses_keep (ctxs : list nat) :
  forall (p : Process) (ctx instance : nat),
    cached p !! ctx = Some instance ->
    cached (accesses ctxs p) !! ctx = Some instance.
Proof.
  induction ctxs as [|other ctxs IH]; intros p ctx instance Hhit; simpl.
  - exact Hhit.
  - apply IH. apply getGithubApi_keeps. exact Hhit.
Qed.

Lemma getGithubApi_caches (p : Process) (ctx : nat) :
  cached (snd (getGithubApi ctx p)) !! ctx = Some (fst (getGithubApi ctx p)).
Proof.
  unfold getGithubApi, cache_get.
  destruct (cached p !! ctx) as [found|] eqn:Hctx; simpl; [exact Hctx|].
  apply lookup_insert_eq.
Qed.

(** C9: the first access for a context constructs a client, a fresh object
    wired to the logger of that context and to the secret, and every later
    access for the same context returns that same object and constructs
    nothing, whatever other contexts are accessed in between; after an
    override has assigned an instance to a context, every later access for
    that context returns the assigned instance and constructs nothing. *)
Theorem context_cache_memoizes_and_overrides
    (p : Process) (ctx : nat) (later : list nat) :
  let first := getGithubApi ctx p in
  match cached p !! ctx with
  | None =>
      fst first = length (heap p)
      /\ heap (snd first) =
           heap p ++ [ {| api_log := getRequestLogger ctx;
                          api_secret := GITHUB_SECRET p |} ]
  | Some instance => first = (instance, p)
  end
  /\ getGithubApi ctx (accesses later (snd first)) =
       (fst first, accesses later (snd first))
  /\ forall instance : nat,
       getGithubApi ctx (accesses later (assignGithubApi ctx instance p)) =
         (instance, accesses later (assignGithubApi ctx instance p)).
Proof.
  intros first. split; [|split].
  - subst first. unfold getGithubApi, cache_get.
    destruct (cached p !! ctx) as [instance|]; [reflexivity|].
    simpl. split; reflexivity.
  - apply getGithubApi_cached, accesses_keep, getGithubApi_caches.
  - intros instance. apply getGithubApi_cached, accesses_keep.
    unfold assignGithubApi, cache_assignValue. simpl. apply lookup_insert_eq.
Qed.

(* ===================================================================== *)
(** ** The properties on the sample upstream *)
(* ===================================================================== *)

Lemma getCommitDate_later_of_author_and_committer_witness :
  fst (GithubApi.getCommitDate (rt:=Sample.runtime) Sample.commit_upstream
         "master" Sample.world0)
    = Return {| timeValue := Some (Z.max 1556712000000 1556872200000) |}
  /\ fst (GithubApi.getCommitDate (rt:=Sample.runtime) Sample.commit_upstream
         "master" Sample.world0)
    = Return (newDate (rt:=Sample.runtime) "2019-05-03T08:30:00Z").
Proof.
  apply (getCommitDate_later_of_author_and_committer (rt:=Sample.runtime)
           Sample.commit_upstream "master" Sample.world0 Sample.commit_response);
    reflexivity.
Defined.

Lemma compare_checks_ahead_by_against_commits_witness :
  (fst (GithubApi.compare (rt:=Sample.runtime) Sample.anomalous_upstream
          "feature/x" "master" Sample.world0)
     = Throw (newError "Unexpected github response")
   /\ exists lines : list (@LogEntry Sample.runtime),
        Forall rate_limit_info lines
        /\ logs (snd (GithubApi.compare (rt:=Sample.runtime) Sample.anomalous_upstream
                        "feature/x" "master" Sample.world0))
           = logs Sample.world0 ++ lines ++
             [ {| log_level := Error;
                  log_message := "unexpected github response, expected oldest missing commit";
                  log_meta := Some [("totalMissingCommits", LInt 3);
                                    ("respBody", LCompare {| ahead_by := 3; commits := [] |})] |} ])
  /\ logs (snd (GithubApi.compare (rt:=Sample.runtime) Sample.anomalous_upstream
                  "feature/x" "master" Sample.world0))
     = [ Sample.rate_limit_line 4996 5000;
         {| log_level := Error;
            log_message := "unexpected github response, expected oldest missing commit";
            log_meta := Some [("totalMissingCommits", LInt 3);
                              ("respBody", LCompare {| ahead_by := 3; commits := [] |})] |} ]
  /\ (fst (GithubApi.compare (rt:=Sample.runtime) Sample.up_to_date_upstream
          "feature/x" "master" Sample.world0)
     = Return {| GithubApi.totalMissingCommits := 0; GithubApi.missingCommits := [] |}
   /\ exists lines : list (@LogEntry Sample.runtime),
        Forall rate_limit_info lines
        /\ logs (snd (GithubApi.compare (rt:=Sample.runtime) Sample.up_to_date_upstream
                        "feature/x" "master" Sample.world0))
           = logs Sample.world0 ++ lines).
Proof.
  split; [|split].
  - apply (proj1 (compare_checks_ahead_by_against_commits (rt:=Sample.runtime)
                    Sample.anomalous_upstream "feature/x" "master" Sample.world0
                    Sample.anomalous_compare eq_refl)); reflexivity.
  - reflexivity.
  - apply (proj2 (compare_checks_ahead_by_against_commits (rt:=Sample.runtime)
                    Sample.up_to_date_upstream "feature/x" "master" Sample.world0
                    Sample.up_to_date_compare eq_refl)); reflexivity.
Defined.

Lemma req_classifies_logs_and_rethrows_witness :
  fst (GithubApi.req (rt:=Sample.runtime) Sample.rejecting_upstream "post"
         "/repos/elastic/kibana/statuses/0a1b2c" (Some []) None Sample.world0)
    = Throw Sample.error_422
  /\ map log_message
       (logs (snd (GithubApi.req (rt:=Sample.runtime) Sample.rejecting_upstream "post"
         "/repos/elastic/kibana/statuses/0a1b2c" (Some []) None Sample.world0)))
    = ["rate limit 4995/5000"; "github api response error"]
  /\ map log_message
       (logs (snd (GithubApi.req (rt:=Sample.runtime) Sample.unreachable_upstream "post"
         "/repos/elastic/kibana/statuses/0a1b2c" (Some []) None Sample.world0)))
    = ["github api request error"]
  /\ logs (snd (GithubApi.req (rt:=Sample.runtime) Sample.broken_upstream "post"
         "/repos/elastic/kibana/statuses/0a1b2c" (Some []) None Sample.world0))
    = [].
Proof.
  pose proof (req_classifies_logs_and_rethrows (rt:=Sample.runtime)
                Sample.rejecting_upstream "post"
                "/repos/elastic/kibana/statuses/0a1b2c" (Some []) None
                Sample.world0 Sample.error_422 eq_refl) as (Hthrow & Hresp & _).
  pose proof (req_classifies_logs_and_rethrows (rt:=Sample.runtime)
                Sample.unreachable_upstream "post"
                "/repos/elastic/kibana/statuses/0a1b2c" (Some []) None
                Sample.world0 Sample.error_refused eq_refl) as (_ & _ & Hreq & _).
  pose proof (req_classifies_logs_and_rethrows (rt:=Sample.runtime)
                Sample.broken_upstream "post"
                "/repos/elastic/kibana/statuses/0a1b2c" (Some []) None
                Sample.world0 Sample.error_other eq_refl) as (_ & _ & _ & Hother).
  split; [exact Hthrow|]. split; [|split].
  - destruct (Hresp Sample.unprocessable eq_refl eq_refl) as (lines & _ & Hlogs).
    reflexivity.
  - destruct (Hreq eq_refl eq_refl) as (lines & _ & Hlogs).
    reflexivity.
  - rewrite (Hother eq_refl). reflexivity.
Defined.

Lemma rate_limit_monitor_contract_witness :
  GithubApi.checkForRateLimitInfo (rt:=Sample.runtime) Sample.unprocessable
      Sample.world0 = (Return tt, Sample.called 4995 5000)
  /\ logs (snd (GithubApi.checkForRateLimitInfo (rt:=Sample.runtime)
                  Sample.unprocessable Sample.world0))
     = logs Sample.world0 ++ [Sample.rate_limit_line 4995 5000]
  /\ GithubApi.checkForRateLimitInfo (rt:=Sample.runtime) Sample.plain_response
      Sample.world0 = (Return tt, Sample.world0).
Proof.
  destruct (proj1 (rate_limit_monitor_contract (rt:=Sample.runtime)
                     Sample.unprocessable Sample.world0) "5000" "4995")
    as [Hcall Hfirst]; [reflexivity | reflexivity | discriminate | discriminate |].
  split; [rewrite Hcall; reflexivity|]. split.
  - apply Hfirst. reflexivity.
  - apply (proj2 (rate_limit_monitor_contract (rt:=Sample.runtime)
                    Sample.plain_response Sample.world0)).
    left. reflexivity.
Defined.

(** The claim C6 as stated fails on a response that includes both headers,
    the remaining one with an empty value: the throttled logger is not
    called and nothing is written, also on a client whose throttle would
    let the call through. *)
Lemma rate_limit_headers_included_but_not_emitted :
  is_Some (response_header Sample.blank_remaining "x-ratelimit-limit")
  /\ is_Some (response_header Sample.blank_remaining "x-ratelimit-remaining")
  /\ GithubApi.checkForRateLimitInfo (rt:=Sample.runtime) Sample.blank_remaining
       Sample.world0 = (Return tt, Sample.world0).
Proof.
  split; [|split].
  - exists "5000". reflexivity.
  - exists EmptyString. reflexivity.
  - reflexivity.
Qed.

Lemma rate_limit_monitor_tests_truthiness_witness :
  GithubApi.checkForRateLimitInfo (rt:=Sample.runtime) Sample.blank_remaining
      Sample.world0 = (Return tt, Sample.world0)
  /\ throttled (snd (GithubApi.checkForRateLimitInfo (rt:=Sample.runtime)
                       Sample.exhausted Sample.world0))
     = throttled Sample.world0 ++ [(Some 0, Some 5000)]
  /\ logs (snd (GithubApi.checkForRateLimitInfo (rt:=Sample.runtime)
                  Sample.exhausted Sample.world0))
     = logs Sample.world0 ++ [Sample.rate_limit_line 0 5000].
Proof.
  split.
  - apply (proj1 (rate_limit_monitor_tests_truthiness (rt:=Sample.runtime)
                    Sample.blank_remaining Sample.world0)).
    right. reflexivity.
  - destruct (proj2 (rate_limit_monitor_tests_truthiness (rt:=Sample.runtime)
                       Sample.exhausted Sample.world0) "5000")
      as [Hcall Hfirst]; [reflexivity | discriminate | reflexivity |].
    split; [exact Hcall|]. apply Hfirst. reflexivity.
Defined.

(** The claim C10 as stated fails on a response whose remaining header is
    "0": both headers are there, the value "0" is a truthy string, the
    throttled logger is called with 0 and the limit, and on a client just
    constructed the line "rate limit 0/5000" is in the log when the
    monitor returns. *)
Lemma rate_limit_remaining_zero_is_emitted :
  response_header Sample.exhausted "x-ratelimit-limit" = Some "5000"
  /\ response_header Sample.exhausted "x-ratelimit-remaining" = Some "0"
  /\ truthy_string "0" = true
  /\ GithubApi.checkForRateLimitInfo (rt:=Sample.runtime) Sample.exhausted
       Sample.world0 = (Return tt, Sample.called 0 5000)
  /\ map log_message
       (logs (snd (GithubApi.checkForRateLimitInfo (rt:=Sample.runtime)
                     Sample.exhausted Sample.world0)))
     = ["rate limit 0/5000"].
Proof. repeat split; reflexivity. Qed.

Lemma req_feeds_rate_limit_monitor_witness :
  GithubApi.req (rt:=Sample.runtime) Sample.commit_upstream "get"
      "/repos/elastic/kibana/commits/master" None None Sample.world0
    = (Return Sample.commit_response,
       snd (GithubApi.checkForRateLimitInfo Sample.commit_response
              (record_request
                 {| cfg_method := "get";
                    cfg_url := "/repos/elastic/kibana/commits/master";
                    cfg_params := None; cfg_data := None |} Sample.world0)))
  /\ throttled (snd (GithubApi.req (rt:=Sample.runtime) Sample.commit_upstream "get"
      "/repos/elastic/kibana/commits/master" None None Sample.world0))
    = [(Some 4997, Some 5000)]
  /\ throttled (snd (GithubApi.req (rt:=Sample.runtime) Sample.rejecting_upstream "get"
      "/repos/elastic/kibana/commits/master" None None Sample.world0))
    = [(Some 4995, Some 5000)]
  /\ throttled (snd (GithubApi.req (rt:=Sample.runtime) Sample.unreachable_upstream "get"
      "/repos/elastic/kibana/commits/master" None None Sample.world0))
    = [].
Proof.
  pose proof (req_feeds_rate_limit_monitor (rt:=Sample.runtime)
                Sample.commit_upstream "get"
                "/repos/elastic/kibana/commits/master" None None Sample.world0)
    as (Hok & _ & _).
  pose proof (req_feeds_rate_limit_monitor (rt:=Sample.runtime)
                Sample.rejecting_upstream "get"
                "/repos/elastic/kibana/commits/master" None None Sample.world0)
    as (_ & Hresp & _).
  pose proof (req_feeds_rate_limit_monitor (rt:=Sample.runtime)
                Sample.unreachable_upstream "get"
                "/repos/elastic/kibana/commits/master" None None Sample.world0)
    as (_ & _ & Hreq).
  split; [exact (Hok Sample.commit_response eq_refl)|]. split; [|split].
  - rewrite (Hok Sample.commit_response eq_refl). reflexivity.
  - destruct (Hresp Sample.error_422 Sample.unprocessable eq_refl eq_refl eq_refl)
      as [_ Hcalls].
    rewrite Hcalls. reflexivity.
  - destruct (Hreq Sample.error_refused eq_refl eq_refl) as [_ Hcalls].
    exact Hcalls.
Defined.

Lemma traversal_fails_after_page_without_usable_link_witness :
  (fst (GithubApi.drain (rt:=Sample.runtime) Sample.unlinked_upstream 50
          (GithubApi.AtLoopTest [None; Some Sample.page2_url]) Sample.world0)
     = ([Sample.pr 201; Sample.pr 202],
        GithubApi.Raised (newError "missing link header"))
   /\ requests (snd (GithubApi.drain (rt:=Sample.runtime) Sample.unlinked_upstream 50
          (GithubApi.AtLoopTest [None; Some Sample.page2_url]) Sample.world0))
     = [GithubApi.page_request None])
  /\ (fst (GithubApi.drain (rt:=Sample.runtime) Sample.badly_linked_upstream 50
          GithubApi.ittrAllOpenPrs Sample.world0)
     = ([Sample.pr 301],
        GithubApi.Raised (newError "unable to parse link header"))
   /\ requests (snd (GithubApi.drain (rt:=Sample.runtime) Sample.badly_linked_upstream 50
          GithubApi.ittrAllOpenPrs Sample.world0))
     = [GithubApi.page_request None]).
Proof.
  split.
  - apply (proj1 (traversal_fails_after_page_without_usable_link
                    (rt:=Sample.runtime) Sample.unlinked_upstream None
                    [Some Sample.page2_url] Sample.world0
                    Sample.page_without_link
                    (Sample.rate_headers "4994") 50%nat
                    eq_refl eq_refl ltac:(simpl; lia))).
    reflexivity.
  - apply (proj2 (traversal_fails_after_page_without_usable_link
                    (rt:=Sample.runtime) Sample.badly_linked_upstream None
                    [] Sample.world0 Sample.page_with_bad_link
                    {[ "link" := "next page" ]} 50%nat
                    eq_refl eq_refl ltac:(simpl; lia)) "next page");
      [reflexivity | discriminate | reflexivity].
Defined.

Lemma traversal_of_two_pages_witness :
  fst (GithubApi.drain (rt:=Sample.runtime) Sample.two_pages 20
         GithubApi.ittrAllOpenPrs Sample.world0)
    = ([Sample.pr 101; Sample.pr 102; Sample.pr 103; Sample.pr 104; Sample.pr 105],
       GithubApi.Finished)
  /\ requests (snd (GithubApi.drain (rt:=Sample.runtime) Sample.two_pages 20
         GithubApi.ittrAllOpenPrs Sample.world0))
    = [GithubApi.page_request None;
       {| cfg_method := "get"; cfg_url := Sample.page2_url;
          cfg_params := None; cfg_data := None |}].
Proof.
  apply (traversal_of_two_pages (rt:=Sample.runtime) Sample.two_pages
           Sample.world0 Sample.page1 Sample.page2
           (Sample.pr 101) (Sample.pr 102) (Sample.pr 103)
           (Sample.pr 104) (Sample.pr 105)
           (<["link" := Sample.link_of_page1]> (Sample.rate_headers "4999"))
           (<["link" := Sample.link_of_page2]> (Sample.rate_headers "4998"))
           Sample.link_of_page1 Sample.link_of_page2
           {[ "next" := Sample.page2_url; "last" := Sample.page2_url ]}
           {[ "prev" := "https://api.github.com/repositories/7833168/pulls?state=open&page=1";
              "first" := "https://api.github.com/repositories/7833168/pulls?state=open&page=1" ]}
           Sample.page2_url 20%nat);
    try reflexivity; try discriminate.
  lia.
Defined.

(* ===================================================================== *)
(** ** Further properties of the client *)
(* ===================================================================== *)

Section Further.
Context {rt : JsRuntime}.

(** *** What one call of [req] leaves behind *)

Lemma checkForRateLimitInfo_throttled {T} (resp : AxiosResponse T) (w : World) :
  exists calls,
    throttled (snd (GithubApi.checkForRateLimitInfo resp w)) = throttled w ++ calls
    /\ (length calls <= 1)%nat.
Proof.
  unfold GithubApi.checkForRateLimitInfo.
  destruct (resp_headers resp) as [headers|].
  - destruct (truthy_header _ && truthy_header _).
    + rewrite throttledLogRateLimitInfo_effect. simpl.
      eexists [_]. split; [reflexivity|simpl; lia].
    + exists []. rewrite app_nil_r. split; [reflexivity|simpl; lia].
  - exists []. rewrite app_nil_r. split; [reflexivity|simpl; lia].
Qed.

(** The catch block on a request-level failure: the debug entry, then the
    same error again. *)
Lemma req_catch_request {R} method url params body message (w : World) :
  GithubApi.req_catch (R:=R) method url params body
      (ErrorObject message true None) w =
    (Throw (ErrorObject message true None),
     snd (log Debug "github api request error"
       (Some [("@type", LStr "githubApiRequestError");
              ("errorMessage", LStr message);
              ("data", LObj
                 [("method", LStr method); ("url", LStr url);
                  ("params", LParams params); ("body", LParams body)])])
       w)).
Proof. reflexivity. Qed.

(** The world after [req], by what axios does. *)
Lemma req_world {R} (ax : Transport R) method url params body (w : World) :
  let config := {| cfg_method := method; cfg_url := url;
                   cfg_params := params; cfg_data := body |} in
  match ax (requests w) config with
  | Return resp =>
      GithubApi.req ax method url params body w =
        (Return resp,
         snd (GithubApi.checkForRateLimitInfo resp (record_request config w)))
  | Throw err =>
      GithubApi.req ax method url params body w =
        GithubApi.req_catch method url params body err (record_request config w)
  end.
Proof.
  intros config.
  destruct (ax (requests w) config) as [resp|err] eqn:Hax.
  - apply req_fulfilled. exact Hax.
  - apply req_rejected. exact Hax.
Qed.

Lemma req_rethrows {R} (ax : Transport R) method url params body (w : World) err :
  ax (requests w) {| cfg_method := method; cfg_url := url;
                     cfg_params := params; cfg_data := body |} = Throw err ->
  fst (GithubApi.req ax method url params body w) = Throw err.
Proof.
  intros Hax. rewrite (req_rejected _ _ _ _ _ _ _ Hax).
  destruct err as [|message [] [response|]]; [reflexivity| |reflexivity..].
  rewrite req_catch_response. reflexivity.
Qed.

Lemma req_requests {R} (ax : Transport R) method url params body (w : World) :
  requests (snd (GithubApi.req ax method url params body w)) =
    requests w ++ [ {| cfg_method := method; cfg_url := url;
                       cfg_params := params; cfg_data := body |} ].
Proof.
  pose proof (req_world ax method url params body w) as Hworld.
  cbv zeta in Hworld.
  destruct (ax (requests w) _) as [resp|err]; rewrite Hworld.
  - cbn [fst snd].
    rewrite checkForRateLimitInfo_requests. apply record_request_requests.
  - destruct err as [|message [] [response|]];
      try apply record_request_requests.
    rewrite req_catch_response. cbn [fst snd log modify requests].
    rewrite checkForRateLimitInfo_requests. apply record_request_requests.
Qed.

Lemma req_console {R} (ax : Transport R) method url params body (w : World) :
  console (snd (GithubApi.req ax method url params body w)) = console w.
Proof.
  pose proof (req_world ax method url params body w) as Hworld.
  cbv zeta in Hworld.
  destruct (ax (requests w) _) as [resp|err]; rewrite Hworld.
  - cbn [fst snd].
    rewrite checkForRateLimitInfo_console. apply record_request_console.
  - destruct err as [|message [] [response|]];
      try apply record_request_console.
    rewrite req_catch_response. cbn [fst snd log modify console].
    rewrite checkForRateLimitInfo_console. apply record_request_console.
Qed.

Lemma req_throttled {R} (ax : Transport R) method url params body (w : World) :
  exists calls,
    throttled (snd (GithubApi.req ax method url params body w)) =
      throttled w ++ calls
    /\ (length calls <= 1)%nat.
Proof.
  pose proof (req_world ax method url params body w) as Hworld.
  cbv zeta in Hworld.
  assert (Hnone : forall config,
            exists calls,
              throttled (record_request config w) = throttled w ++ calls
              /\ (length calls <= 1)%nat).
  { intros config. exists []. rewrite app_nil_r, record_request_throttled.
    split; [reflexivity|simpl; lia]. }
  destruct (ax (requests w) _) as [resp|err]; rewrite Hworld.
  - cbn [fst snd].
    destruct (checkForRateLimitInfo_throttled resp (record_request
                {| cfg_method := method; cfg_url := url;
                   cfg_params := params; cfg_data := body |} w))
      as (calls & Hcalls & Hlen).
    exists calls. rewrite Hcalls, record_request_throttled. split; [reflexivity|exact Hlen].
  - destruct err as [|message [] [response|]]; try apply Hnone.
    rewrite req_catch_response. cbn [fst snd log modify throttled].
    destruct (checkForRateLimitInfo_throttled response (record_request
                {| cfg_method := method; cfg_url := url;
                   cfg_params := params; cfg_data := body |} w))
      as (calls & Hcalls & Hlen).
    exists calls. rewrite Hcalls, record_request_throttled. split; [reflexivity|exact Hlen].
Qed.

(** X1: whatever axios answers or throws, one call of [req] hands exactly
    one configuration to axios, the one built from its arguments: nothing
    is retried.  It calls the throttled logger at most once and writes
    nothing to the console. *)
Theorem req_makes_exactly_one_request {R} (ax : Transport R)
    (method url : string) (params body : option (list (string * JsVal)))
    (w : World) :
  let w' := snd (GithubApi.req ax method url params body w) in
  requests w' = requests w ++ [ {| cfg_method := method; cfg_url := url;
                                   cfg_params := params; cfg_data := body |} ]
  /\ console w' = console w
  /\ exists calls, throttled w' = throttled w ++ calls /\ (length calls <= 1)%nat.
Proof.
  intros w'. subst w'.
  split; [apply req_requests|]. split; [apply req_console|apply req_throttled].
Qed.

(** X2: besides lines of the throttled rate-limit logger, [req] writes to
    the logger only when axios throws an error that carries a request:
    then exactly one entry, at debug level and after those lines.  On a
    fulfilled request and on an error without a request it writes no entry
    of its own.  So an error with a response, which also passes
    [isAxiosErrorReq], is logged once and not twice. *)
Theorem req_logs_one_debug_entry_per_axios_error {R} (ax : Transport R)
    (method url : string) (params body : option (list (string * JsVal)))
    (w : World) :
  exists lines entries,
    logs (snd (GithubApi.req ax method url params body w))
      = logs w ++ lines ++ entries
    /\ Forall rate_limit_info lines
    /\ Forall (fun entry => log_level entry = Debug) entries
    /\ length entries =
         match ax (requests w) {| cfg_method := method; cfg_url := url;
                                  cfg_params := params; cfg_data := body |} with
         | Return _ => 0%nat
         | Throw err => if isAxiosErrorReq err then 1%nat else 0%nat
         end.
Proof.
  pose proof (req_world ax method url params body w) as Hworld.
  cbv zeta in Hworld.
  destruct (record_request_frame
              {| cfg_method := method; cfg_url := url;
                 cfg_params := params; cfg_data := body |} w)
    as (_ & _ & _ & waited & Hwaited & Hwaited_lines).
  assert (Hnone : exists lines entries,
            logs (record_request
                    {| cfg_method := method; cfg_url := url;
                       cfg_params := params; cfg_data := body |} w)
              = logs w ++ lines ++ entries
            /\ Forall rate_limit_info lines
            /\ Forall (fun entry => log_level entry = Debug) entries
            /\ length entries = 0%nat).
  { exists waited, []. rewrite app_nil_r.
    split; [exact Hwaited|]. split; [exact Hwaited_lines|].
    split; [constructor|reflexivity]. }
  destruct (ax (requests w) _) as [resp|err]; rewrite Hworld.
  - cbn [fst snd].
    destruct (settled_lines resp
                {| cfg_method := method; cfg_url := url;
                   cfg_params := params; cfg_data := body |} w)
      as (lines & Hlogs & Hlines).
    exists lines, []. rewrite app_nil_r.
    split; [exact Hlogs|]. split; [exact Hlines|].
    split; [constructor|reflexivity].
  - destruct err as [|message [] [response|]]; try exact Hnone.
    + rewrite req_catch_response. cbn [fst snd log modify logs].
      destruct (settled_lines response
                  {| cfg_method := method; cfg_url := url;
                     cfg_params := params; cfg_data := body |} w)
        as (lines & Hlogs & Hlines).
      exists lines. eexists [_]. rewrite Hlogs, <- app_assoc.
      split; [reflexivity|]. split; [exact Hlines|].
      split; [repeat constructor|reflexivity].
    + exists waited. eexists [_].
      rewrite req_catch_request. cbn [fst snd log modify logs].
      rewrite Hwaited, <- app_assoc.
      split; [reflexivity|]. split; [exact Hwaited_lines|].
      split; [repeat constructor|reflexivity].
Qed.

(** *** The domain operations *)

Lemma bind_req_requests {R B} (ax : Transport R) method url params body
    (k : AxiosResponse R -> M B) (w : World) :
  (forall resp w0, requests (snd (k resp w0)) = requests w0) ->
  requests (snd (bind (GithubApi.req ax method url params body) k w)) =
    requests w ++ [ {| cfg_method := method; cfg_url := url;
                       cfg_params := params; cfg_data := body |} ].
Proof.
  intros Hk. unfold bind.
  pose proof (req_requests ax method url params body w) as Hreq.
  destruct (GithubApi.req ax method url params body w) as [[resp|err] w1];
    simpl in *; [rewrite Hk|]; exact Hreq.
Qed.

Lemma bind_req_rethrows {R B} (ax : Transport R) method url params body
    (k : AxiosResponse R -> M B) (w : World) err :
  ax (requests w) {| cfg_method := method; cfg_url := url;
                     cfg_params := params; cfg_data := body |} = Throw err ->
  fst (bind (GithubApi.req ax method url params body) k w) = Throw err.
Proof.
  intros Hax. unfold bind.
  pose proof (req_rethrows ax method url params body w err Hax) as Hthrow.
  destruct (GithubApi.req ax method url params body w) as [[resp|err'] w1];
    simpl in *; [discriminate|].
  injection Hthrow as ->. reflexivity.
Qed.

(** X3: each of [compare], [getCommitDate], [setCommitStatus] and [getPr]
    hands exactly one configuration to axios, whatever comes back: a GET
    (a POST with empty params and the options as body for
    [setCommitStatus]) on the path built from the encoded argument; and
    when axios throws, the operation throws the same error. *)
Theorem operations_make_one_request_and_pass_errors_through
    (headRef baseRef ref prId : string) (options : CommitStatusOptions)
    (w : World) :
  (forall ax : Transport GithubApiCompare,
     let config :=
       {| cfg_method := "get";
          cfg_url := "/repos/elastic/kibana/compare/" +:+ encodeURIComponent headRef
                     +:+ "..." +:+ encodeURIComponent baseRef;
          cfg_params := None; cfg_data := None |} in
     requests (snd (GithubApi.compare ax headRef baseRef w)) = requests w ++ [config]
     /\ forall err, ax (requests w) config = Throw err ->
          fst (GithubApi.compare ax headRef baseRef w) = Throw err)
  /\ (forall ax : Transport CommitResource,
     let config :=
       {| cfg_method := "get";
          cfg_url := "/repos/elastic/kibana/commits/" +:+ encodeURIComponent ref;
          cfg_params := None; cfg_data := None |} in
     requests (snd (GithubApi.getCommitDate ax ref w)) = requests w ++ [config]
     /\ forall err, ax (requests w) config = Throw err ->
          fst (GithubApi.getCommitDate ax ref w) = Throw err)
  /\ (forall ax : Transport JsVal,
     let config :=
       {| cfg_method := "post";
          cfg_url := "/repos/elastic/kibana/statuses/" +:+ encodeURIComponent ref;
          cfg_params := Some [];
          cfg_data := Some (GithubApi.status_body options) |} in
     requests (snd (GithubApi.setCommitStatus ax ref options w)) = requests w ++ [config]
     /\ forall err, ax (requests w) config = Throw err ->
          fst (GithubApi.setCommitStatus ax ref options w) = Throw err)
  /\ (forall ax : Transport GithubApiPr,
     let config :=
       {| cfg_method := "get";
          cfg_url := "/repos/elastic/kibana/pulls/" +:+ encodeURIComponent prId;
          cfg_params := None; cfg_data := None |} in
     requests (snd (GithubApi.getPr ax prId w)) = requests w ++ [config]
     /\ forall err, ax (requests w) config = Throw err ->
          fst (GithubApi.getPr ax prId w) = Throw err).
Proof.
  split; [|split; [|split]]; intros ax config; subst config.
  - unfold GithubApi.compare, GithubApi.get. split.
    + apply bind_req_requests. intros resp w0.
      destruct (_ && _); reflexivity.
    + intros err. apply bind_req_rethrows.
  - unfold GithubApi.getCommitDate, GithubApi.get. split.
    + apply bind_req_requests. reflexivity.
    + intros err. apply bind_req_rethrows.
  - unfold GithubApi.setCommitStatus, GithubApi.post. split.
    + apply bind_req_requests. reflexivity.
    + intros err. apply bind_req_rethrows.
  - unfold GithubApi.getPr, GithubApi.get. split.
    + apply bind_req_requests. reflexivity.
    + intros err. apply bind_req_rethrows.
Qed.

(** X4: on a fulfilled request [compare] throws its own error exactly when
    the ahead-by count is positive and the commits list is empty.  Every
    other response is returned as it is, and [compare] writes no entry for
    it, so that the log gains lines of the throttled rate-limit logger at
    most: a count of zero or below with commits listed, and a positive
    count with commits listed, whatever their number. *)
Theorem compare_throws_exactly_on_positive_count_without_commits
    (ax : Transport GithubApiCompare) (headRef baseRef : string) (w : World)
    (resp : AxiosResponse GithubApiCompare) :
  ax (requests w)
     {| cfg_method := "get";
        cfg_url := "/repos/elastic/kibana/compare/" +:+ encodeURIComponent headRef
                   +:+ "..." +:+ encodeURIComponent baseRef;
        cfg_params := None; cfg_data := None |} = Return resp ->
  (fst (GithubApi.compare ax headRef baseRef w)
     = Throw (newError "Unexpected github response")
   <-> 0 < ahead_by (resp_data resp) /\ commits (resp_data resp) = [])
  /\ (~ (0 < ahead_by (resp_data resp) /\ commits (resp_data resp) = []) ->
      fst (GithubApi.compare ax headRef baseRef w)
        = Return {| GithubApi.totalMissingCommits := ahead_by (resp_data resp);
                    GithubApi.missingCommits := commits (resp_data resp) |}
      /\ exists lines,
           Forall rate_limit_info lines
           /\ logs (snd (GithubApi.compare ax headRef baseRef w)) = logs w ++ lines).
Proof.
  intros Hax.
  unfold GithubApi.compare, GithubApi.get, bind.
  rewrite (req_fulfilled _ _ _ _ _ _ _ Hax).
  destruct (settled_lines resp
      {| cfg_method := "get";
         cfg_url := "/repos/elastic/kibana/compare/" +:+ encodeURIComponent headRef
                    +:+ "..." +:+ encodeURIComponent baseRef;
         cfg_params := None; cfg_data := None |} w) as (lines & Hlogs & Hlines).
  set (w1 := snd (GithubApi.checkForRateLimitInfo resp _)) in *.
  destruct (Z.gtb_spec (ahead_by (resp_data resp)) 0) as [Hpos|Hle];
    destruct (commits (resp_data resp)) as [|commit rest] eqn:Hcommits; simpl.
  - split; [split; [intros _; split; [lia|reflexivity]|reflexivity]|].
    intros Hnot. exfalso. apply Hnot. split; [lia|reflexivity].
  - split; [split; [discriminate|intros [_ Hnil]; discriminate]|].
    intros _. split; [reflexivity|]. exists lines. split; assumption.
  - split; [split; [discriminate|intros [Hpos _]; lia]|].
    intros _. split; [reflexivity|]. exists lines. split; assumption.
  - split; [split; [discriminate|intros [Hpos _]; lia]|].
    intros _. split; [reflexivity|]. exists lines. split; assumption.
Qed.

(** X5: when one of the two timestamps of a commit does not parse, the
    comparison of the dates is false and [getCommitDate] returns the author
    date: the author date when the committer date is invalid, and an
    invalid date when the author date is, also when the committer date is
    valid. *)
Theorem getCommitDate_with_an_invalid_date (commit : Commit) :
  (dateParse (person_date (commit_committer commit)) = None ->
     getCommitDate commit = newDate (person_date (commit_author commit)))
  /\ (dateParse (person_date (commit_author commit)) = None ->
     getCommitDate commit = newDate (person_date (commit_author commit))
     /\ timeValue (getCommitDate commit) = None).
Proof.
  unfold getCommitDate, date_gt, newDate. simpl. split.
  - intros ->. reflexivity.
  - intros ->. destruct (dateParse _); split; reflexivity.
Qed.

(** *** The traversal, page after page *)

Lemma fetchPage_requests (ax : Transport (list GithubApiPr)) url (w : World) :
  requests (snd (GithubApi.fetchPage ax url w)) =
    requests w ++ [GithubApi.page_request url].
Proof.
  destruct url as [url|];
    unfold GithubApi.fetchPage, GithubApi.fetchNextPage,
      GithubApi.fetchInitialPage, GithubApi.get, bind; simpl;
    rewrite req_requests; reflexivity.
Qed.

Lemma fetchPage_rejected (ax : Transport (list GithubApiPr)) url (w : World) err :
  ax (requests w) (GithubApi.page_request url) = Throw err ->
  fst (GithubApi.fetchPage ax url w) = Throw err.
Proof.
  intros Hax.
  destruct url as [url|]; simpl in Hax;
    unfold GithubApi.fetchPage, GithubApi.fetchNextPage,
      GithubApi.fetchInitialPage, GithubApi.get, bind; simpl;
    apply req_rethrows; exact Hax.
Qed.

Lemma drain_serves (ax : Transport (list GithubApiPr)) :
  forall (visits : list (option string * AxiosResponse (list GithubApiPr)))
         (w : World) (fuel : nat),
    serves ax (requests w) visits ->
    (steps_of visits <= fuel)%nat ->
    fst (GithubApi.drain ax fuel (GithubApi.AtLoopTest (queue_of visits)) w)
      = (concat (map (fun visit => resp_data (snd visit)) visits), GithubApi.Finished)
    /\ requests (snd (GithubApi.drain ax fuel
                        (GithubApi.AtLoopTest (queue_of visits)) w))
      = requests w ++ map (fun visit => GithubApi.page_request (fst visit)) visits.
Proof.
  induction visits as [|[url page] rest IH]; intros w fuel Hserves Hfuel.
  - simpl in Hfuel. destruct fuel as [|fuel]; [lia|]. simpl.
    rewrite app_nil_r. split; reflexivity.
  - simpl in Hserves.
    destruct Hserves as (Hax & (headers & link & links & Hh & Hl & Hne & Hparse & Hnext)
                         & Hrest).
    destruct (fetchPage_fulfilled ax url w page Hax) as [Hfetch Hreq].
    pose proof (checkLink_parsed [] page headers link links Hh Hl Hne Hparse)
      as Hcheck.
    assert (Hqueue : match links !! "next" with
                     | Some next_url => [] ++ [Some next_url]
                     | None => []
                     end = queue_of rest).
    { destruct rest as [|[next page'] rest'].
      - rewrite Hnext. reflexivity.
      - destruct Hnext as [[next_url ->] ->]. reflexivity. }
    rewrite Hqueue in Hcheck.
    simpl in Hfuel.
    replace fuel with (S (length (resp_data page)
                          + S (fuel - length (resp_data page) - 2)))%nat by lia.
    cbn [queue_of].
    rewrite (drain_page_advanced ax url [] w page _ _ Hfetch Hcheck).
    rewrite <- Hreq in Hrest.
    destruct (IH (snd (GithubApi.fetchPage ax url w))
                 (fuel - length (resp_data page) - 2)%nat Hrest ltac:(lia))
      as [Hyield Hrequests].
    destruct (GithubApi.drain ax _ (GithubApi.AtLoopTest (queue_of rest)) _)
      as [[prs o] w'].
    simpl in *. injection Hyield as -> ->.
    rewrite Hrequests, Hreq, <- app_assoc. split; reflexivity.
Qed.

(** X6: against an upstream that serves a sequence of pages, each linked to
    the one after it by its next relation and the last without one, the
    traversal yields the records of all pages, page after page and each
    page in the order received, and ends; it makes one request per page,
    the first for the open pull requests and each later one for the url of
    the next relation of the page before. *)
Theorem traversal_follows_the_next_links
    (ax : Transport (list GithubApiPr)) (w : World)
    (page : AxiosResponse (list GithubApiPr))
    (rest : list (option string * AxiosResponse (list GithubApiPr)))
    (fuel : nat) :
  serves ax (requests w) ((None, page) :: rest) ->
  (steps_of ((None, page) :: rest) <= fuel)%nat ->
  let result := GithubApi.drain ax fuel GithubApi.ittrAllOpenPrs w in
  fst result =
    (concat (map (fun visit => resp_data (snd visit)) ((None, page) :: rest)),
     GithubApi.Finished)
  /\ requests (snd result) =
       requests w ++ map (fun visit => GithubApi.page_request (fst visit))
                         ((None, page) :: rest).
Proof.
  intros Hserves Hfuel result. subst result.
  apply (drain_serves ax ((None, page) :: rest) w fuel Hserves Hfuel).
Qed.

(** *** What the traversal never does *)

Lemma step_queue_bounded (ax : Transport (list GithubApiPr)) g (w : World) :
  queue_bounded g -> queue_bounded (snd (fst (GithubApi.step ax g w))).
Proof.
  destruct g as [[|url urls]|urls page [|pr rest]|]; simpl; intros Hg.
  - exact I.
  - destruct urls as [|url' urls]; [|simpl in Hg; lia].
    destruct (GithubApi.fetchPage ax url w) as [[page|err] w']; simpl; done.
  - subst urls. unfold GithubApi.checkLink.
    destruct (resp_headers page) as [headers|]; [|exact I].
    destruct (negb (truthy_header (headers !! "link"))); [exact I|].
    destruct (parseLinkHeader _) as [links|]; [|exact I].
    destruct (links !! "next"); simpl; lia.
  - exact Hg.
  - exact I.
Qed.

Lemma advance_queue_bounded (ax : Transport (list GithubApiPr)) (n : nat) :
  forall g (w : World), queue_bounded g -> queue_bounded (fst (advance ax n g w)).
Proof.
  induction n as [|n IH]; intros g w Hg; simpl; [exact Hg|].
  pose proof (step_queue_bounded ax g w Hg) as Hstep.
  destruct (GithubApi.step ax g w) as [[s g'] w']. apply IH. exact Hstep.
Qed.

(** X7: at every point of a traversal, whatever the upstream answers, the
    queue of pending page references holds at most one entry, and none
    while the records of a page are being yielded: a page adds at most its
    own next relation after the entry for it has been taken. *)
Theorem traversal_queue_holds_at_most_one_url
    (ax : Transport (list GithubApiPr)) (n : nat) (w : World) :
  queue_bounded (fst (advance ax n GithubApi.ittrAllOpenPrs w)).
Proof.
  apply advance_queue_bounded. simpl. lia.
Qed.

Lemma drain_partial (ax : Transport (list GithubApiPr)) urls page (w : World) :
  forall (k : nat) (rest : list GithubApiPr),
    (k <= length rest)%nat ->
    GithubApi.drain ax k (GithubApi.InPage urls page rest) w =
      ((take k rest, GithubApi.Suspended (GithubApi.InPage urls page (drop k rest))), w).
Proof.
  induction k as [|k IH]; intros rest Hk; [reflexivity|].
  destruct rest as [|pr rest]; [simpl in Hk; lia|].
  simpl in Hk. cbn [GithubApi.drain GithubApi.step].
  rewrite IH by lia. reflexivity.
Qed.

(** X8: the traversal fetches a page only when the consumer asks for a
    record beyond the ones it holds.  A consumer that takes [k] records of
    a fetched page, up to all of them, has received the first [k] records
    in order, and one request has been made: the link header has not been
    looked at and the next page has not been requested. *)
Theorem traversal_fetches_no_page_ahead
    (ax : Transport (list GithubApiPr)) (url : option string)
    (urls : list (option string)) (w : World)
    (page : AxiosResponse (list GithubApiPr)) (k : nat) :
  ax (requests w) (GithubApi.page_request url) = Return page ->
  (k <= length (resp_data page))%nat ->
  let result := GithubApi.drain ax (S k) (GithubApi.AtLoopTest (url :: urls)) w in
  fst result =
    (take k (resp_data page),
     GithubApi.Suspended (GithubApi.InPage urls page (drop k (resp_data page))))
  /\ requests (snd result) = requests w ++ [GithubApi.page_request url].
Proof.
  intros Hax Hk result. subst result.
  destruct (fetchPage_fulfilled ax url w page Hax) as [Hfetch Hreq].
  cbn [GithubApi.drain GithubApi.step].
  destruct (GithubApi.fetchPage ax url w) as [c w1]. simpl in Hfetch, Hreq. subst c.
  rewrite drain_partial by exact Hk. split; [reflexivity|exact Hreq].
Qed.

(** X9: when axios throws on the request for a page, the traversal throws
    the same error without yielding anything more, and that request is the
    last one it makes, whatever is left in the queue. *)
Theorem traversal_stops_at_a_rejected_request
    (ax : Transport (list GithubApiPr)) (url : option string)
    (urls : list (option string)) (w : World) (err : JsError) (fuel : nat) :
  ax (requests w) (GithubApi.page_request url) = Throw err ->
  (1 <= fuel)%nat ->
  let result := GithubApi.drain ax fuel (GithubApi.AtLoopTest (url :: urls)) w in
  fst result = ([], GithubApi.Raised err)
  /\ requests (snd result) = requests w ++ [GithubApi.page_request url].
Proof.
  intros Hax Hfuel result. subst result.
  destruct fuel as [|fuel]; [lia|].
  pose proof (fetchPage_rejected ax url w err Hax) as Hthrow.
  pose proof (fetchPage_requests ax url w) as Hreq.
  cbn [GithubApi.drain GithubApi.step].
  destruct (GithubApi.fetchPage ax url w) as [c w1]. simpl in Hthrow, Hreq. subst c.
  split; [reflexivity|exact Hreq].
Qed.

(** X10: a link header that is there with the empty string as its value
    counts as missing: the traversal yields the records of the page and
    then throws "missing link header", without handing the value to
    parse-link-header. *)
Theorem traversal_takes_an_empty_link_header_for_missing
    (ax : Transport (list GithubApiPr)) (url : option string)
    (urls : list (option string)) (w : World)
    (page : AxiosResponse (list GithubApiPr)) (headers : gmap string string)
    (fuel : nat) :
  ax (requests w) (GithubApi.page_request url) = Return page ->
  resp_headers page = Some headers ->
  headers !! "link" = Some EmptyString ->
  (length (resp_data page) + 2 <= fuel)%nat ->
  let result := GithubApi.drain ax fuel (GithubApi.AtLoopTest (url :: urls)) w in
  fst result = (resp_data page, GithubApi.Raised (newError "missing link header"))
  /\ requests (snd result) = requests w ++ [GithubApi.page_request url].
Proof.
  intros Hax Hheaders Hlink Hfuel result. subst result.
  destruct (fetchPage_fulfilled ax url w page Hax) as [Hfetch Hreq].
  rewrite (drain_page_failed ax url urls w page
             (newError "missing link header") GithubApi.Completed fuel Hfetch);
    [split; [reflexivity|exact Hreq]| |exact Hfuel].
  unfold GithubApi.checkLink. rewrite Hheaders, Hlink. reflexivity.
Qed.

Lemma fetched_only_refl (w : World) : fetched_only w w.
Proof.
  exists [], []. rewrite !app_nil_r. repeat split; [constructor|simpl; lia].
Qed.

Lemma fetched_only_trans (w1 w2 w3 : World) :
  fetched_only w1 w2 -> fetched_only w2 w3 -> fetched_only w1 w3.
Proof.
  intros (made1 & calls1 & Hr1 & Hg1 & Ht1 & Hl1)
         (made2 & calls2 & Hr2 & Hg2 & Ht2 & Hl2).
  exists (made1 ++ made2), (calls1 ++ calls2).
  rewrite Hr2, Hr1, Ht2, Ht1, <- !app_assoc.
  repeat split; [apply Forall_app; split; assumption|].
  rewrite !length_app. lia.
Qed.

Lemma fetchPage_fetched_only (ax : Transport (list GithubApiPr)) url (w : World) :
  fetched_only w (snd (GithubApi.fetchPage ax url w)).
Proof.
  pose proof (fetchPage_requests ax url w) as Hreq.
  assert (Hcalls : exists calls,
            throttled (snd (GithubApi.fetchPage ax url w)) = throttled w ++ calls
            /\ (length calls <= 1)%nat).
  { destruct url as [url|];
      unfold GithubApi.fetchPage, GithubApi.fetchNextPage,
        GithubApi.fetchInitialPage, GithubApi.get, bind; simpl.
    - apply (req_throttled ax "get" url None None
               (snd (console_log ["fetching page of PRs"; url] w))).
    - apply (req_throttled ax "get" "/repos/elastic/kibana/pulls"
               (Some [("state", JStr "open")]) None
               (snd (log Info "fetching initial page of PRs" None w))). }
  destruct Hcalls as (calls & Hthrottled & Hlen).
  exists [GithubApi.page_request url], calls.
  repeat split; [exact Hreq| |exact Hthrottled|simpl; lia].
  constructor; [|constructor]. destruct url; split; reflexivity.
Qed.

Lemma step_fetched_only (ax : Transport (list GithubApiPr)) g (w : World) :
  fetched_only w (snd (GithubApi.step ax g w)).
Proof.
  destruct g as [[|url urls]|urls page [|pr rest]|]; simpl;
    try apply fetched_only_refl.
  pose proof (fetchPage_fetched_only ax url w) as Hfetch.
  destruct (GithubApi.fetchPage ax url w) as [[page|err] w']; exact Hfetch.
Qed.

Lemma drain_fetched_only (ax : Transport (list GithubApiPr)) (fuel : nat) :
  forall g (w : World), fetched_only w (snd (GithubApi.drain ax fuel g w)).
Proof.
  induction fuel as [|fuel IH]; intros g w; [apply fetched_only_refl|].
  cbn [GithubApi.drain].
  pose proof (step_fetched_only ax g w) as Hstep.
  destruct (GithubApi.step ax g w) as [[s g'] w']. simpl in Hstep.
  destruct s as [|pr| | |e]; try exact Hstep;
    try (apply (fetched_only_trans w w'); [exact Hstep|apply IH]).
  pose proof (IH g' w') as Hrest.
  destruct (GithubApi.drain ax fuel g' w') as [[prs o] w''].
  apply (fetched_only_trans w w'); [exact Hstep|exact Hrest].
Qed.

(** X11: whatever the upstream answers and however far the traversal is
    consumed, from any point of it, the requests it makes are all GETs
    without a body, and it calls the throttled rate-limit logger at most
    once per request it makes. *)
Theorem traversal_only_gets
    (ax : Transport (list GithubApiPr)) (fuel : nat)
    (g : GithubApi.Generator) (w : World) :
  exists (made : list AxiosRequestConfig) (calls : list (JsNumber * JsNumber)),
    requests (snd (GithubApi.drain ax fuel g w)) = requests w ++ made
    /\ Forall (fun config => cfg_method config = "get" /\ cfg_data config = None) made
    /\ throttled (snd (GithubApi.drain ax fuel g w)) = throttled w ++ calls
    /\ (length calls <= length made)%nat.
Proof.
  apply (drain_fetched_only ax fuel g w).
Qed.

Lemma drain_never_ends (ax : Transport (list GithubApiPr)) :
  (forall earlier config, exists page headers link links next_url,
     ax earlier config = Return page /\ resp_headers page = Some headers
     /\ headers !! "link" = Some link /\ link <> EmptyString
     /\ parseLinkHeader link = Some links /\ links !! "next" = Some next_url) ->
  forall (fuel : nat) g (w : World),
    (exists url, g = GithubApi.AtLoopTest [url])
    \/ (exists page rest next_url,
          g = GithubApi.InPage [] page rest
          /\ GithubApi.checkLink [] page =
               (GithubApi.Advanced, GithubApi.AtLoopTest [Some next_url])) ->
    exists prs g', fst (GithubApi.drain ax fuel g w) = (prs, GithubApi.Suspended g').
Proof.
  intros Hax. induction fuel as [|fuel IH]; intros g w Hg.
  - exists [], g. reflexivity.
  - destruct Hg as [[url ->]|(page & rest & next_url & -> & Hcheck)].
    + destruct (Hax (requests w) (GithubApi.page_request url))
        as (page & headers & link & links & next_url
            & Hpage & Hh & Hl & Hne & Hparse & Hnext).
      destruct (fetchPage_fulfilled ax url w page Hpage) as [Hfetch _].
      pose proof (checkLink_parsed [] page headers link links Hh Hl Hne Hparse)
        as Hcheck.
      rewrite Hnext in Hcheck. simpl in Hcheck.
      cbn [GithubApi.drain GithubApi.step].
      destruct (GithubApi.fetchPage ax url w) as [c w1]. simpl in Hfetch. subst c.
      apply IH. right. eauto.
    + destruct rest as [|pr rest]; cbn [GithubApi.drain GithubApi.step].
      * rewrite Hcheck. apply IH. left. eauto.
      * destruct (IH (GithubApi.InPage [] page rest) w) as (prs & g' & Hrest);
          [right; eauto|].
        destruct (GithubApi.drain ax fuel _ w) as [[prs0 o] w'].
        simpl in Hrest. injection Hrest as -> ->.
        exists (pr :: prs), g'. reflexivity.
Qed.

(** X13: the traversal has no page limit and keeps no record of the urls
    it has visited.  Against an upstream whose every page carries a next
    relation it neither ends nor fails: however long it is consumed, it is
    still under way. *)
Theorem traversal_has_no_end_of_its_own
    (ax : Transport (list GithubApiPr)) (w : World) (fuel : nat) :
  (forall earlier config, exists page headers link links next_url,
     ax earlier config = Return page /\ resp_headers page = Some headers
     /\ headers !! "link" = Some link /\ link <> EmptyString
     /\ parseLinkHeader link = Some links /\ links !! "next" = Some next_url) ->
  exists prs g,
    fst (GithubApi.drain ax fuel GithubApi.ittrAllOpenPrs w)
      = (prs, GithubApi.Suspended g).
Proof.
  intros Hax. apply (drain_never_ends ax Hax). left. eauto.
Qed.

End Further.

(** *** One client per context *)

Lemma getGithubApi_consistent (p : Process) (ctx : nat) :
  cache_consistent p -> cache_consistent (snd (getGithubApi ctx p)).
Proof.
  intros [Hbound Hinj].
  unfold getGithubApi, cache_get, githubApiCache_factory, newGithubApi.
  destruct (cached p !! ctx) as [found|] eqn:Hctx; simpl; [split; assumption|].
  split.
  - intros ctx' instance Hlookup. cbn [heap cached] in *.
    rewrite length_app. simpl.
    destruct (decide (ctx = ctx')) as [->|Hne].
    + rewrite lookup_insert_eq in Hlookup. injection Hlookup as <-. lia.
    + rewrite lookup_insert_ne in Hlookup by exact Hne.
      pose proof (Hbound ctx' instance Hlookup). lia.
  - intros ctx1 ctx2 instance H1 H2. cbn [heap cached] in *.
    destruct (decide (ctx = ctx1)) as [<-|Hne1];
      destruct (decide (ctx = ctx2)) as [<-|Hne2].
    + reflexivity.
    + rewrite lookup_insert_eq in H1. injection H1 as <-.
      rewrite lookup_insert_ne in H2 by exact Hne2.
      pose proof (Hbound ctx2 _ H2). lia.
    + rewrite lookup_insert_eq in H2. injection H2 as <-.
      rewrite lookup_insert_ne in H1 by exact Hne1.
      pose proof (Hbound ctx1 _ H1). lia.
    + rewrite lookup_insert_ne in H1 by exact Hne1.
      rewrite lookup_insert_ne in H2 by exact Hne2.
      exact (Hinj ctx1 ctx2 instance H1 H2).
Qed.

Lemma accesses_consistent (ctxs : list nat) :
  forall p : Process, cache_consistent p -> cache_consistent (accesses ctxs p).
Proof.
  induction ctxs as [|ctx ctxs IH]; intros p Hp; simpl; [exact Hp|].
  apply IH, getGithubApi_consistent. exact Hp.
Qed.

(** X12: on the cache as section 4.6 of the specification describes it,
    with the factory of [githubApiCache]: from a process in which every
    cached client is an object that has been constructed (its address lies
    in the heap) and no two contexts share a cached client, and after any
    run of accesses, two different contexts get two different clients.  A
    cache into which an override has put an address outside the heap, or
    one client for two contexts, is not covered. *)
Theorem contexts_do_not_share_a_client
    (p : Process) (ctxs : list nat) (ctx1 ctx2 : nat) :
  cache_consistent p -> ctx1 <> ctx2 ->
  let p1 := accesses ctxs p in
  fst (getGithubApi ctx1 p1) <> fst (getGithubApi ctx2 (snd (getGithubApi ctx1 p1))).
Proof.
  intros Hp Hne p1 Heq.
  pose proof (accesses_consistent ctxs p Hp) as H1. fold p1 in H1.
  pose proof (getGithubApi_consistent p1 ctx1 H1) as H2.
  pose proof (getGithubApi_consistent _ ctx2 H2) as [_ Hinj].
  apply Hne.
  apply (Hinj ctx1 ctx2 (fst (getGithubApi ctx1 p1))).
  - apply getGithubApi_keeps, getGithubApi_caches.
  - rewrite Heq. apply getGithubApi_caches.
Qed.

(* ===================================================================== *)
(** ** The further properties on the sample upstream *)
(* ===================================================================== *)

Lemma operations_make_one_request_and_pass_errors_through_witness :
  fst (GithubApi.compare (rt:=Sample.runtime) (Sample.failing GithubApiCompare)
         "feature/x" "master" Sample.world0) = Throw Sample.error_422
  /\ fst (GithubApi.getCommitDate (rt:=Sample.runtime) (Sample.failing CommitResource)
         "master" Sample.world0) = Throw Sample.error_422
  /\ fst (GithubApi.setCommitStatus (rt:=Sample.runtime) (Sample.failing JsVal)
         "master"
         {| opt_state := state_pending; opt_context := "prbot:release note labels";
            opt_description := None; opt_target_url := None |}
         Sample.world0) = Throw Sample.error_422
  /\ fst (GithubApi.getPr (rt:=Sample.runtime) (Sample.failing GithubApiPr)
         "101" Sample.world0) = Throw Sample.error_422.
Proof.
  destruct (operations_make_one_request_and_pass_errors_through
              (rt:=Sample.runtime) "feature/x" "master" "master" "101"
              {| opt_state := state_pending;
                 opt_context := "prbot:release note labels";
                 opt_description := None; opt_target_url := None |}
              Sample.world0) as (Hcompare & Hdate & Hstatus & Hpr).
  split; [|split; [|split]].
  - apply (proj2 (Hcompare (Sample.failing GithubApiCompare))). reflexivity.
  - apply (proj2 (Hdate (Sample.failing CommitResource))). reflexivity.
  - apply (proj2 (Hstatus (Sample.failing JsVal))). reflexivity.
  - apply (proj2 (Hpr (Sample.failing GithubApiPr))). reflexivity.
Defined.

Lemma compare_throws_exactly_on_positive_count_without_commits_witness :
  (fst (GithubApi.compare (rt:=Sample.runtime) Sample.lagging_upstream
          "feature/x" "master" Sample.world0)
     = Return {| GithubApi.totalMissingCommits := 0;
                 GithubApi.missingCommits := commits (resp_data Sample.lagging_compare) |}
   /\ exists lines : list (@LogEntry Sample.runtime),
        Forall rate_limit_info lines
        /\ logs (snd (GithubApi.compare (rt:=Sample.runtime) Sample.lagging_upstream
                        "feature/x" "master" Sample.world0))
           = logs Sample.world0 ++ lines)
  /\ logs (snd (GithubApi.compare (rt:=Sample.runtime) Sample.lagging_upstream
                  "feature/x" "master" Sample.world0))
     = [Sample.rate_limit_line 4992 5000].
Proof.
  split; [|reflexivity].
  apply (proj2 (compare_throws_exactly_on_positive_count_without_commits
                  (rt:=Sample.runtime) Sample.lagging_upstream "feature/x" "master"
                  Sample.world0 Sample.lagging_compare eq_refl)).
  intros [Hpos _]. discriminate Hpos.
Defined.

Lemma getCommitDate_with_an_invalid_date_witness :
  getCommitDate (rt:=Sample.runtime) Sample.commit_without_author_date
    = newDate (rt:=Sample.runtime) "yesterday"
  /\ timeValue (getCommitDate (rt:=Sample.runtime) Sample.commit_without_author_date)
    = None.
Proof.
  apply (proj2 (getCommitDate_with_an_invalid_date (rt:=Sample.runtime)
                  Sample.commit_without_author_date)).
  reflexivity.
Defined.

Lemma traversal_follows_the_next_links_witness :
  fst (GithubApi.drain (rt:=Sample.runtime) Sample.two_pages 10
         GithubApi.ittrAllOpenPrs Sample.world0)
    = ([Sample.pr 101; Sample.pr 102; Sample.pr 103; Sample.pr 104; Sample.pr 105],
       GithubApi.Finished)
  /\ requests (snd (GithubApi.drain (rt:=Sample.runtime) Sample.two_pages 10
         GithubApi.ittrAllOpenPrs Sample.world0))
    = [GithubApi.page_request None; GithubApi.page_request (Some Sample.page2_url)].
Proof.
  apply (traversal_follows_the_next_links (rt:=Sample.runtime) Sample.two_pages
           Sample.world0 Sample.page1 [(Some Sample.page2_url, Sample.page2)]
           10%nat).
  - simpl. split; [reflexivity|]. split.
    + exists (<["link" := Sample.link_of_page1]> (Sample.rate_headers "4999")),
             Sample.link_of_page1,
             {[ "next" := Sample.page2_url; "last" := Sample.page2_url ]}.
      repeat split; try reflexivity; try discriminate. eexists. reflexivity.
    + split; [reflexivity|]. split; [|exact I].
      exists (<["link" := Sample.link_of_page2]> (Sample.rate_headers "4998")),
             Sample.link_of_page2,
             {[ "prev" := "https://api.github.com/repositories/7833168/pulls?state=open&page=1";
                "first" := "https://api.github.com/repositories/7833168/pulls?state=open&page=1" ]}.
      repeat split; try reflexivity; discriminate.
  - simpl. lia.
Defined.

Lemma traversal_fetches_no_page_ahead_witness :
  fst (GithubApi.drain (rt:=Sample.runtime) Sample.two_pages 4
         GithubApi.ittrAllOpenPrs Sample.world0)
    = ([Sample.pr 101; Sample.pr 102; Sample.pr 103],
       GithubApi.Suspended (GithubApi.InPage [] Sample.page1 []))
  /\ requests (snd (GithubApi.drain (rt:=Sample.runtime) Sample.two_pages 4
         GithubApi.ittrAllOpenPrs Sample.world0))
    = [GithubApi.page_request None].
Proof.
  apply (traversal_fetches_no_page_ahead (rt:=Sample.runtime) Sample.two_pages
           None [] Sample.world0 Sample.page1 3%nat eq_refl).
  simpl. lia.
Defined.

Lemma traversal_stops_at_a_rejected_request_witness :
  fst (GithubApi.drain (rt:=Sample.runtime) (Sample.failing (list GithubApiPr)) 30
         GithubApi.ittrAllOpenPrs Sample.world0)
    = ([], GithubApi.Raised Sample.error_422)
  /\ requests (snd (GithubApi.drain (rt:=Sample.runtime)
                      (Sample.failing (list GithubApiPr)) 30
                      GithubApi.ittrAllOpenPrs Sample.world0))
    = [GithubApi.page_request None].
Proof.
  apply (traversal_stops_at_a_rejected_request (rt:=Sample.runtime)
           (Sample.failing (list GithubApiPr)) None [] Sample.world0
           Sample.error_422 30%nat eq_refl).
  lia.
Defined.

Lemma traversal_takes_an_empty_link_header_for_missing_witness :
  fst (GithubApi.drain (rt:=Sample.runtime) Sample.emptily_linked_upstream 30
         GithubApi.ittrAllOpenPrs Sample.world0)
    = ([Sample.pr 401], GithubApi.Raised (newError "missing link header"))
  /\ requests (snd (GithubApi.drain (rt:=Sample.runtime)
                      Sample.emptily_linked_upstream 30
                      GithubApi.ittrAllOpenPrs Sample.world0))
    = [GithubApi.page_request None].
Proof.
  apply (traversal_takes_an_empty_link_header_for_missing (rt:=Sample.runtime)
           Sample.emptily_linked_upstream None [] Sample.world0
           Sample.page_with_empty_link {[ "link" := EmptyString ]} 30%nat
           eq_refl eq_refl eq_refl).
  simpl. lia.
Defined.

Lemma contexts_do_not_share_a_client_witness :
  fst (getGithubApi 7%nat (accesses [3; 7; 3]%nat Sample.fresh_process))
  <> fst (getGithubApi 9%nat
            (snd (getGithubApi 7%nat (accesses [3; 7; 3]%nat Sample.fresh_process)))).
Proof.
  apply (contexts_do_not_share_a_client Sample.fresh_process [3; 7; 3]%nat 7%nat 9%nat).
  - split.
    + intros ctx instance Hlookup. simpl in Hlookup.
      rewrite lookup_empty in Hlookup. discriminate.
    + intros ctx1 ctx2 instance Hlookup. simpl in Hlookup.
      rewrite lookup_empty in Hlookup. discriminate.
  - lia.
Defined.

Lemma traversal_has_no_end_of_its_own_witness :
  exists prs g,
    fst (GithubApi.drain (rt:=Sample.runtime) Sample.endless 1000
           GithubApi.ittrAllOpenPrs Sample.world0)
      = (prs, GithubApi.Suspended g).
Proof.
  apply (traversal_has_no_end_of_its_own (rt:=Sample.runtime) Sample.endless
           Sample.world0 1000%nat).
  intros earlier config.
  exists Sample.page1,
         (<["link" := Sample.link_of_page1]> (Sample.rate_headers "4999")),
         Sample.link_of_page1,
         {[ "next" := Sample.page2_url; "last" := Sample.page2_url ]},
         Sample.page2_url.
  repeat split; try reflexivity. discriminate.
Defined.
